(** * AERONET explorer: acquisition, cleaning, column resolution, statistics

    A shallow embedding of [src/aeronet_api.py], [src/data_processing.py]
    and of the control flow of [app.py] that leads to the measurement
    request, with the properties of the pipeline proved over it.

    Conventions of the embedding.
    - Python [str] is [string] (a sequence of bytes); the string methods are
      modelled on ASCII: [upper] maps [a-z] to [A-Z] and leaves every other
      byte alone, [strip] removes the ASCII characters for which
      [str.isspace] holds.
    - a pandas [DataFrame] is a list of column names, a list of dtypes and a
      list of rows of cells; a null (NaN, NaT, None) is the cell [NaN].
    - a float is an exact rational ([Q]): the arithmetic of the statistics
      is the arithmetic of the reals they approximate, without rounding. A
      standard deviation is kept as the rational under its square root.
    - what the code leaves to pandas, requests and the Python runtime
      (the CSV reader, the timestamp parser, the sort algorithm, the HTTP
      transport, [float(...)]) is a member of the class [Platform]: the
      theorems hold for every behaviour of the libraries, and the module
      [Demo] gives a small platform to run the code on. *)

From Stdlib Require Import ZArith QArith Qround String Ascii List Bool Lia.
From Stdlib Require Import Sorting.Sorted Sorting.Permutation DecimalString.
From Stdlib Require Import Lqa.
From stdpp Require Import gmap strings.

Import ListNotations.
Local Open Scope string_scope.
Local Open Scope Z_scope.

(** ** Python string methods *)

Module Str.

Definition LF : ascii := Ascii.ascii_of_nat 10.
Definition COMMA : ascii := ","%char.

(** [c.isspace()] on ASCII: TAB, LF, VT, FF, CR, FS, GS, RS, US, SPACE. *)
Definition isspace (c : ascii) : bool :=
  let n := Ascii.nat_of_ascii c in
  ((9 <=? n)%nat && (n <=? 13)%nat) || ((28 <=? n)%nat && (n <=? 32)%nat).

Fixpoint lstrip (s : string) : string :=
  match s with
  | String c s' => if isspace c then lstrip s' else s
  | EmptyString => EmptyString
  end.

Fixpoint rev_append (s acc : string) : string :=
  match s with
  | String c s' => rev_append s' (String c acc)
  | EmptyString => acc
  end.

Definition reverse (s : string) : string := rev_append s EmptyString.

Definition rstrip (s : string) : string := reverse (lstrip (reverse s)).

(** [s.strip()] *)
Definition strip (s : string) : string := rstrip (lstrip s).

(** [s.startswith(p)] *)
Definition startswith (p s : string) : bool := String.prefix p s.

(** [sub in s] *)
Fixpoint contains (sub s : string) : bool :=
  String.prefix sub s ||
  match s with
  | String _ s' => contains sub s'
  | EmptyString => false
  end.

Definition upper_char (c : ascii) : ascii :=
  let n := Ascii.nat_of_ascii c in
  if ((97 <=? n)%nat && (n <=? 122)%nat)%bool
  then Ascii.ascii_of_nat (n - 32) else c.

(** [s.upper()] *)
Fixpoint upper (s : string) : string :=
  match s with
  | String c s' => String (upper_char c) (upper s')
  | EmptyString => EmptyString
  end.

(** [s.split(sep)] for a one-character separator: never the empty list. *)
Fixpoint split (sep : ascii) (s : string) : list string :=
  match s with
  | EmptyString => [EmptyString]
  | String c s' =>
      if Ascii.eqb c sep then EmptyString :: split sep s'
      else match split sep s' with
           | h :: t => String c h :: t
           | [] => [String c EmptyString]
           end
  end.

(** [sep.join(parts)] *)
Fixpoint join (sep : string) (parts : list string) : string :=
  match parts with
  | [] => EmptyString
  | [p] => p
  | p :: ps => p ++ sep ++ join sep ps
  end.

(** [str(n)] for an integer. *)
Definition of_int (n : Z) : string := NilZero.string_of_int (Z.to_int n).

End Str.

(** ** The data model *)

Inductive dtype : Set := int64 | float64 | object | datetime64.

(** A cell of a frame. [VTime t] is a timestamp (a count of time units since
    the epoch); [NaN] is every pandas null. *)
Inductive cell : Set :=
| VInt (z : Z)
| VFloat (q : Q)
| VStr (s : string)
| VTime (t : Z)
| NaN.

Definition row : Set := list cell.

Record DataFrame : Set := mkDataFrame {
  columns : list string;
  dtypes : list dtype;
  rows : list row
}.

(** [pd.DataFrame()] *)
Definition empty_frame : DataFrame := mkDataFrame [] [] [].

(** [df.empty]: some axis has length zero. *)
Definition empty (df : DataFrame) : bool :=
  match columns df, rows df with
  | [], _ | _, [] => true
  | _, _ => false
  end.

Definition isna (c : cell) : bool :=
  match c with NaN => true | _ => false end.

(** ** data_processing.py: AeronetDataProcessor *)

Definition aod_wavelengths : list Z := [340; 380; 440; 500; 675; 870; 1020].

(** [str(wavelength) in col and 'AOD' in col.upper()] *)
Definition is_aod_column (wavelength : Z) (col : string) : bool :=
  Str.contains (Str.of_int wavelength) col && Str.contains "AOD" (Str.upper col).

(** The inner loop of [extract_aod_columns]: the first wavelength of the list
    that matches [col] is bound to it, and the loop breaks. *)
Fixpoint bind_column (col : string) (wavelengths : list Z)
    (aod_columns : gmap Z string) : gmap Z string :=
  match wavelengths with
  | [] => aod_columns
  | wavelength :: rest =>
      if is_aod_column wavelength col then <[wavelength := col]> aod_columns
      else bind_column col rest aod_columns
  end.

(** The outer loop, over [df.columns] from left to right. *)
Definition extract_from (cols : list string) (aod_columns : gmap Z string)
    : gmap Z string :=
  fold_left (fun acc col => bind_column col aod_wavelengths acc) cols aod_columns.

Definition extract_aod_columns (df : DataFrame) : gmap Z string :=
  extract_from (columns df) ∅.

(** The wavelength a column is filed under: the first of the fixed list
    that matches it. *)
Definition wavelength_of (col : string) : option Z :=
  List.find (fun w => is_aod_column w col) aod_wavelengths.

Definition filed_under (w : Z) (col : string) : bool :=
  match wavelength_of col with
  | Some w' => Z.eqb w' w
  | None => false
  end.

(** What the specification describes: the first column, in column order,
    that matches the wavelength. *)
Definition leftmost_match (w : Z) (cols : list string) : option string :=
  List.find (is_aod_column w) cols.

(** [df_clean[numeric_cols].replace([-999, -999.0, 'N/A'], np.nan)], on one
    cell. [-999 == -999.0] in Python: an integer or a float cell equal to
    either number is replaced. *)
Definition is_sentinel (c : cell) : bool :=
  match c with
  | VInt z => Z.eqb z (-999)
  | VFloat q => Qeq_bool q (-999 # 1)
  | VStr s => String.eqb s "N/A"
  | VTime _ | NaN => false
  end.

Definition replace_cell (c : cell) : cell :=
  if is_sentinel c then NaN else c.

(** [select_dtypes(include=[np.number])] *)
Definition is_numeric (d : dtype) : bool :=
  match d with int64 | float64 => true | object | datetime64 => false end.

(** The replacement along one row: the cells under a numeric dtype. A row
    longer than the list of dtypes keeps its extra cells. *)
Fixpoint replace_row (ds : list dtype) (r : row) : row :=
  match r, ds with
  | c :: r', d :: ds' =>
      (if is_numeric d then replace_cell c else c) :: replace_row ds' r'
  | _, _ => r
  end.

(** [isna] of every cell of the row that stands under one of the names of
    [subset]: the row is dropped by [dropna(subset=subset, how='all')]. *)
Fixpoint all_na (subset cols : list string) (r : row) : bool :=
  match cols, r with
  | col :: cols', c :: r' =>
      (if bool_decide (col ∈ subset) then isna c else true)
      && all_na subset cols' r'
  | _, _ => true
  end.

Definition dropna_all (subset : list string) (df : DataFrame) : DataFrame :=
  mkDataFrame (columns df) (dtypes df)
    (List.filter (fun r => negb (all_na subset (columns df) r)) (rows df)).

(** [list(aod_cols.values())]; [dropna] uses it as a set of names. *)
Definition values (m : gmap Z string) : list string :=
  (map_to_list m).*2.

Definition clean_data (df : DataFrame) : DataFrame :=
  if empty df then df
  else
    let df_clean :=
      mkDataFrame (columns df) (dtypes df)
        (List.map (replace_row (dtypes df)) (rows df)) in
    let aod_cols := extract_aod_columns df_clean in
    if bool_decide (aod_cols = ∅) then df_clean
    else dropna_all (values aod_cols) df_clean.

(** The invariant of a frame: one dtype per column, one cell per column in
    every row. *)
Definition wf_frame (df : DataFrame) : Prop :=
  length (dtypes df) = length (columns df)
  /\ Forall (fun r : row => length r = length (columns df)) (rows df).

(** The column at index [j] has a numeric dtype. *)
Definition numeric_at (df : DataFrame) (j : nat) : bool :=
  match dtypes df !! j with
  | Some d => is_numeric d
  | None => false
  end.

(** The row holds a value under a resolved AOD column. *)
Definition has_aod_value (df : DataFrame) (r : row) : Prop :=
  exists (w : Z) (col : string) (j : nat) (c : cell),
    extract_aod_columns df !! w = Some col
    /\ columns df !! j = Some col
    /\ r !! j = Some c
    /\ isna c = false.

(** *** Series reductions (pandas defaults) over exact rationals *)

Module Series.

Local Open Scope Q_scope.

Definition sum (l : list Q) : Q := fold_right Qplus (0 # 1) l.

Definition of_nat (n : nat) : Q := inject_Z (Z.of_nat n).

(** [data.mean()] *)
Definition mean (l : list Q) : Q := sum l / of_nat (length l).

Fixpoint insert (x : Q) (l : list Q) : list Q :=
  match l with
  | [] => [x]
  | y :: l' => if Qle_bool x y then x :: l else y :: insert x l'
  end.

(** The order statistics of the data. *)
Definition sort (l : list Q) : list Q := fold_right insert [] l.

Definition item (s : list Q) (i : nat) : Q := nth i s (0 # 1).

(** [data.median()]: the middle order statistic, or the average of the two
    middle ones. *)
Definition median (l : list Q) : Q :=
  let s := sort l in
  let n := length l in
  if Nat.even n then (item s (n / 2 - 1)%nat + item s (n / 2)%nat) / (2 # 1)
  else item s (n / 2)%nat.

(** [data.quantile(q)], [interpolation='linear']: the position
    [(n - 1) * q] between two order statistics. *)
Definition quantile (q : Q) (l : list Q) : Q :=
  let s := sort l in
  let pos := of_nat (length l - 1)%nat * q in
  let lo := Z.to_nat (Qfloor pos) in
  let frac := pos - inject_Z (Qfloor pos) in
  item s lo + (item s (S lo) - item s lo) * frac.

Definition qmin (a b : Q) : Q := if Qle_bool a b then a else b.
Definition qmax (a b : Q) : Q := if Qle_bool a b then b else a.

(** [data.min()], [data.max()] of non-empty data. *)
Definition min (l : list Q) : Q :=
  match l with [] => 0 # 1 | x :: l' => fold_left qmin l' x end.
Definition max (l : list Q) : Q :=
  match l with [] => 0 # 1 | x :: l' => fold_left qmax l' x end.

(** [data.var()], [ddof=1]: NaN ([None]) for a single value. *)
Definition var (l : list Q) : option Q :=
  match length l with
  | O | S O => None
  | S n =>
      let m := mean l in
      Some (sum (List.map (fun x => (x - m) * (x - m)) l) / of_nat n)
  end.

End Series.

(** The square root of a rational, kept symbolic. *)
Inductive root : Set := Sqrt (q : Q).

Record Stats : Set := mkStats {
  count : nat;
  mean : Q;
  median : Q;
  std : option root;
  min : Q;
  max : Q;
  q25 : Q;
  q75 : Q
}.

(** What the specification asks of the statistics of the non-null values
    [xs], in its words. *)
Module Described.

Local Open Scope Q_scope.

(** Linear interpolation between the two order statistics around the
    position [pos] of the sorted values [s]. *)
Definition interpolate (s : list Q) (pos : Q) : Q :=
  let lo := Z.to_nat (Qfloor pos) in
  Series.item s lo
  + (Series.item s (S lo) - Series.item s lo) * (pos - inject_Z (Qfloor pos)).

(** The middle value, or the average of the two middle values. *)
Definition middle (s : list Q) : Q :=
  let n := length s in
  if Nat.even n
  then (Series.item s (n / 2 - 1)%nat + Series.item s (n / 2)%nat) / (2 # 1)
  else Series.item s (n / 2)%nat.

Definition squares (m : Q) (xs : list Q) : Q :=
  Series.sum (List.map (fun x => (x - m) * (x - m)) xs).

Definition describes (xs : list Q) (st : Stats) : Prop :=
  let n := length xs in
  count st = n
  /\ mean st * Series.of_nat n == Series.sum xs
  /\ (exists s : list Q,
        Permutation xs s /\ Sorted Qle s
        /\ median st == middle s
        /\ q25 st == interpolate s (Series.of_nat (n - 1)%nat * (1 # 4))
        /\ q75 st == interpolate s (Series.of_nat (n - 1)%nat * (3 # 4)))
  /\ (In (min st) xs /\ Forall (fun x => min st <= x) xs)
  /\ (In (max st) xs /\ Forall (fun x => x <= max st) xs)
  /\ match std st with
     | None => n = 1%nat
     | Some (Sqrt v) =>
         (2 <= n)%nat /\ v * Series.of_nat (n - 1)%nat == squares (mean st) xs
     end.

End Described.

(** The exceptions the code meets. [Exception] is the plain one the code
    raises itself; the others come from the libraries. *)
Inductive exn : Set :=
| RequestException (msg : string)
| ValueError (msg : string)
| KeyError (msg : string)
| TypeError (msg : string)
| ParserError (msg : string)
| Exception (msg : string).

(** [str(e)] *)
Definition str_of_exn (e : exn) : string :=
  match e with
  | RequestException m | ValueError m | KeyError m
  | TypeError m | ParserError m | Exception m => m
  end.

Definition result (A : Type) : Type := exn + A.

(** [df.columns.get_loc(name)] for the first column of that name. *)
Fixpoint get_loc (name : string) (cols : list string) : option nat :=
  match cols with
  | [] => None
  | c :: cols' =>
      if String.eqb c name then Some O
      else option_map S (get_loc name cols')
  end.

Definition cell_at (i : nat) (r : row) : cell := nth i r NaN.

(** [df[name]]: the cells of the column, [KeyError] when there is none. *)
Definition getitem (df : DataFrame) (name : string) : result (list cell) :=
  match get_loc name (columns df) with
  | Some i => inr (List.map (cell_at i) (rows df))
  | None => inl (KeyError name)
  end.

(** [series.dropna()] *)
Definition dropna (s : list cell) : list cell :=
  List.filter (fun c => negb (isna c)) s.

(** The number in a cell; text and timestamps have no mean. *)
Definition to_numeric (c : cell) : result Q :=
  match c with
  | VInt z => inr (inject_Z z)
  | VFloat q => inr q
  | VStr s => inl (TypeError ("Could not convert string '" ++ s ++ "' to numeric"))
  | VTime _ => inl (TypeError "datetime64 type does not support this operation")
  | NaN => inl (TypeError "NaN")
  end.

Fixpoint to_numerics (s : list cell) : result (list Q) :=
  match s with
  | [] => inr []
  | c :: s' =>
      match to_numeric c with
      | inl e => inl e
      | inr q =>
          match to_numerics s' with
          | inl e => inl e
          | inr qs => inr (q :: qs)
          end
      end
  end.

(** [calculate_statistics]: [None] is the empty dict [{}]. *)
Definition calculate_statistics (df : DataFrame) (wavelength : Z)
    : result (option Stats) :=
  let aod_cols := extract_aod_columns df in
  match aod_cols !! wavelength with
  | None => inr None
  | Some col_name =>
      match getitem df col_name with
      | inl e => inl e
      | inr s =>
          let data := dropna s in
          match data with
          | [] => inr None
          | _ =>
              match to_numerics data with
              | inl e => inl e
              | inr xs =>
                  inr (Some {|
                    count := length xs;
                    mean := Series.mean xs;
                    median := Series.median xs;
                    std := option_map Sqrt (Series.var xs);
                    min := Series.min xs;
                    max := Series.max xs;
                    q25 := Series.quantile (1 # 4) xs;
                    q75 := Series.quantile (3 # 4) xs
                  |})
              end
          end
      end
  end.

(** ** The world the client runs in *)

Record date : Set := mkDate { year : Z; month : Z; day : Z }.

(** [a > b] on [datetime.date]. *)
Definition date_gt (a b : date) : bool :=
  (year b <? year a)
  || ((year b =? year a)
      && ((month b <? month a)
          || ((month b =? month a) && (day b <? day a)))).

Record Request : Set := mkRequest {
  url : string;
  params : list (string * string);
  timeout : option Z
}.

Record Response : Set := mkResponse {
  status_code : Z;
  reason : string;
  text : string
}.

Inductive LogRecord : Set :=
| INFO (msg : string)
| ERROR (msg : string).

(** What the page shows; the charts and tables are one event each. *)
Inductive UiEvent : Set :=
| st_error (msg : string)
| st_warning (msg : string)
| st_success (msg : string)
| st_render (what : string).

Record World : Set := mkWorld {
  clock : Q;                          (* time.time() *)
  last_request_time : Q;              (* AeronetAPI.last_request_time *)
  sent : list Request;                (* every HTTP GET issued, oldest first *)
  logged : list LogRecord;            (* the module's logger *)
  sites_cache : option (Q * DataFrame); (* st.cache_data of get_sites_list *)
  aod_data : option DataFrame;        (* st.session_state['aod_data'] *)
  shown : list UiEvent                (* the page *)
}.

(** The libraries and the network, as the code uses them. An [inl] is the
    exception the call raises. *)
Class Platform : Type := {
  (** [float(s)] *)
  float_of_str : string -> result Q;
  (** [datetime.strptime(s, '%Y-%m-%d')] and [d.strftime('%Y-%m-%d')] *)
  strptime : string -> result date;
  strftime : date -> string;
  (** [pd.read_csv(StringIO(text))] *)
  read_csv : string -> result DataFrame;
  (** [pd.to_datetime(series, format='%d:%m:%Y %H:%M:%S')] and
      [pd.to_datetime(series)]; [None] is NaT. *)
  to_datetime_format : list cell -> result (list (option Z));
  to_datetime : list cell -> result (list (option Z));
  (** [df.sort_values(by)], default [kind]: the rows reordered by the cell
      at the index of the [by] column. *)
  sort_values : nat -> list row -> result (list row);
  (** An HTTP GET: the time it takes and its outcome. *)
  http_get : World -> Request -> Q * result Response
}.

(** A computation: it changes the world and returns or raises. *)
Definition M (A : Type) : Type := World -> World * result A.

Definition ret {A} (a : A) : M A := fun w => (w, inr a).
Definition raise {A} (e : exn) : M A := fun w => (w, inl e).
Definition bind {A B} (m : M A) (k : A -> M B) : M B :=
  fun w => match m w with
           | (w', inr a) => k a w'
           | (w', inl e) => (w', inl e)
           end.
Definition lift {A} (r : result A) : M A := fun w => (w, r).

(** [try: body except Exception as e: handler(e)] *)
Definition try_except {A} (body : M A) (handler : exn -> M A) : M A :=
  fun w => match body w with
           | (w', inr a) => (w', inr a)
           | (w', inl e) => handler e w'
           end.

Declare Scope py_scope.
Delimit Scope py_scope with py.
Notation "x <- m ;; k" := (bind m (fun x => k))
  (at level 100, m at next level, right associativity) : py_scope.
Notation "m ;;; k" := (bind m (fun _ => k))
  (at level 100, right associativity) : py_scope.

Definition set_clock (t : Q) (w : World) : World :=
  mkWorld t (last_request_time w) (sent w) (logged w) (sites_cache w)
    (aod_data w) (shown w).
Definition set_last_request_time (t : Q) (w : World) : World :=
  mkWorld (clock w) t (sent w) (logged w) (sites_cache w)
    (aod_data w) (shown w).
Definition add_sent (r : Request) (w : World) : World :=
  mkWorld (clock w) (last_request_time w) (sent w ++ [r]) (logged w)
    (sites_cache w) (aod_data w) (shown w).
Definition add_logged (l : LogRecord) (w : World) : World :=
  mkWorld (clock w) (last_request_time w) (sent w) (logged w ++ [l])
    (sites_cache w) (aod_data w) (shown w).
Definition set_sites_cache (c : option (Q * DataFrame)) (w : World) : World :=
  mkWorld (clock w) (last_request_time w) (sent w) (logged w) c
    (aod_data w) (shown w).
Definition set_aod_data (d : option DataFrame) (w : World) : World :=
  mkWorld (clock w) (last_request_time w) (sent w) (logged w)
    (sites_cache w) d (shown w).
Definition add_shown (e : UiEvent) (w : World) : World :=
  mkWorld (clock w) (last_request_time w) (sent w) (logged w)
    (sites_cache w) (aod_data w) (shown w ++ [e]).

Definition modify (f : World -> World) : M unit := fun w => (f w, inr tt).
Definition get {A} (f : World -> A) : M A := fun w => (w, inr (f w)).

Definition logger_info (msg : string) : M unit := modify (add_logged (INFO msg)).
Definition logger_error (msg : string) : M unit := modify (add_logged (ERROR msg)).
Definition show (e : UiEvent) : M unit := modify (add_shown e).

(** [time.sleep(d)] *)
Definition sleep (d : Q) : M unit := modify (fun w => set_clock (clock w + d)%Q w).

(** [requests.get(url, ...)] and [session.get(url, ...)]: the request is
    issued and recorded, the time passes, the outcome comes back. *)
Definition requests_get `{Platform} (r : Request) : M Response :=
  fun w =>
    let (d, out) := http_get w r in
    (set_clock (clock w + d)%Q (add_sent r w), out).

(** [response.raise_for_status()]: an [HTTPError], which is a
    [RequestException], for a status from 400 to 599. *)
Definition raise_for_status (u : string) (r : Response) : result unit :=
  if (400 <=? status_code r) && (status_code r <? 500) then
    inl (RequestException
           (Str.of_int (status_code r) ++ " Client Error: " ++ reason r
            ++ " for url: " ++ u))
  else if (500 <=? status_code r) && (status_code r <? 600) then
    inl (RequestException
           (Str.of_int (status_code r) ++ " Server Error: " ++ reason r
            ++ " for url: " ++ u))
  else inr tt.

(** ** aeronet_api.py: AeronetAPI *)

Section Client.

Context {P : Platform}.
Local Open Scope py_scope.

Definition base_url : string :=
  "https://aeronet.gsfc.nasa.gov/cgi-bin/print_web_data_v3".
Definition sites_url : string :=
  "https://aeronet.gsfc.nasa.gov/aeronet_locations_v3.txt".

Definition _respect_rate_limit (delay : Q) : M unit :=
  now <- get clock ;;
  last <- get last_request_time ;;
  let elapsed := (now - last)%Q in
  (if Qlt_le_dec elapsed delay then sleep (delay - elapsed)%Q else ret tt) ;;;
  now' <- get clock ;;
  modify (set_last_request_time now').

(** *** get_sites_list *)

Definition part (parts : list string) (i : nat) : string :=
  nth i parts EmptyString.

(** One line of the sites file: the row it appends, if any. *)
Definition parse_site_line (line : string) : result (option row) :=
  if String.eqb (Str.strip line) "" then inr None
  else
    let parts := Str.split Str.COMMA line in
    if (4 <=? length parts)%nat then
      match float_of_str (Str.strip (part parts 1)) with
      | inl e => inl e
      | inr lon =>
          match float_of_str (Str.strip (part parts 2)) with
          | inl e => inl e
          | inr lat =>
              match (if String.eqb (Str.strip (part parts 3)) "" then inr (0 # 1)
                     else float_of_str (Str.strip (part parts 3))) with
              | inl e => inl e
              | inr elev =>
                  inr (Some [VStr (Str.strip (part parts 0));
                             VFloat lon; VFloat lat; VFloat elev])
              end
          end
      end
    else inr None.

(** The loop over [lines[1:]]. *)
Fixpoint parse_site_lines (lines : list string) : result (list row) :=
  match lines with
  | [] => inr []
  | line :: rest =>
      match parse_site_line line with
      | inl e => inl e
      | inr o =>
          match parse_site_lines rest with
          | inl e => inl e
          | inr rs => inr (match o with Some r => r :: rs | None => rs end)
          end
      end
  end.

Definition sites_columns : list string :=
  ["Site_Name"; "Longitude"; "Latitude"; "Elevation"].

(** [pd.DataFrame(sites_data)]: a list of dicts with the same four keys;
    the empty list gives a frame without columns. *)
Definition sites_frame (sites_data : list row) : DataFrame :=
  match sites_data with
  | [] => empty_frame
  | _ => mkDataFrame sites_columns [object; float64; float64; float64] sites_data
  end.

(** [pd.DataFrame(columns=[...])] *)
Definition no_sites : DataFrame :=
  mkDataFrame sites_columns [object; object; object; object] [].

(** The body of the [try]. *)
Definition fetch_sites : M DataFrame :=
  response <- requests_get (mkRequest sites_url [] None) ;;
  lift (raise_for_status sites_url response) ;;;
  let lines := Str.split Str.LF (Str.strip (text response)) in
  sites_data <- lift (parse_site_lines (tl lines)) ;;
  ret (sites_frame sites_data).

Definition get_sites_list : M DataFrame :=
  try_except fetch_sites
    (fun e =>
       logger_error ("Error fetching sites list: " ++ str_of_exn e) ;;;
       ret no_sites).

(** [@st.cache_data(ttl=...)] on a function without arguments: the stored
    value is returned while it is younger than [ttl]. *)
Definition st_cache_data (ttl : Q) (f : M DataFrame) : M DataFrame :=
  cache <- get sites_cache ;;
  now <- get clock ;;
  match cache with
  | Some (t, df) =>
      if Qlt_le_dec (now - t)%Q ttl then ret df
      else (df' <- f ;; modify (set_sites_cache (Some (now, df'))) ;;; ret df')
  | None => df' <- f ;; modify (set_sites_cache (Some (now, df'))) ;;; ret df'
  end.

(** *** get_aod_data *)

Definition is_header (line : string) : bool :=
  Str.startswith "Date(dd:mm:yyyy)" line || Str.startswith "Date_" line.

(** The [for i, line in enumerate(lines)] loop: [data_start], which is 0
    before the loop, after it. [i] is the index of the head of [lines]. *)
Fixpoint find_header (lines : list string) (i : nat) : nat :=
  match lines with
  | [] => O
  | line :: rest => if is_header line then i else find_header rest (S i)
  end.

Definition data_start (lines : list string) : nat :=
  let data_start := find_header lines O in
  if (data_start =? 0)%nat then Nat.min 6 (length lines - 1) else data_start.

(** [a + b] on two cells of object columns: pandas skips the nulls. *)
Definition add_str (a b : cell) : result cell :=
  match a, b with
  | VStr x, VStr y => inr (VStr (x ++ y))
  | NaN, _ | _, NaN => inr NaN
  | _, _ => inl (TypeError "unsupported operand type(s) for +")
  end.

Fixpoint series_add (a b : list cell) : result (list cell) :=
  match a, b with
  | x :: a', y :: b' =>
      match add_str x y with
      | inl e => inl e
      | inr c =>
          match series_add a' b' with
          | inl e => inl e
          | inr cs => inr (c :: cs)
          end
      end
  | _, _ => inr []
  end.

Definition series_add_scalar (a : list cell) (s : string) : result (list cell) :=
  series_add a (List.map (fun _ => VStr s) a).

Definition cell_of_timestamp (t : option Z) : cell :=
  match t with Some z => VTime z | None => NaN end.

(** [l[i] = v], the list padded with [d] up to [i]. *)
Fixpoint set_nth {A} (d : A) (i : nat) (v : A) (l : list A) : list A :=
  match i, l with
  | O, [] => [v]
  | O, _ :: l' => v :: l'
  | S i', [] => d :: set_nth d i' v []
  | S i', x :: l' => x :: set_nth d i' v l'
  end.

Fixpoint set_column (i : nat) (vals : list cell) (rs : list row) : list row :=
  match rs with
  | [] => []
  | r :: rs' => set_nth NaN i (hd NaN vals) r :: set_column i (tl vals) rs'
  end.

(** [df[name] = vals]: an existing column is overwritten, a new one is
    appended on the right. *)
Definition setitem (df : DataFrame) (name : string) (d : dtype)
    (vals : list cell) : DataFrame :=
  match get_loc name (columns df) with
  | Some i =>
      mkDataFrame (columns df) (set_nth object i d (dtypes df))
        (set_column i vals (rows df))
  | None =>
      let i := length (columns df) in
      mkDataFrame (columns df ++ [name]) (set_nth object i d (dtypes df))
        (set_column i vals (rows df))
  end.

Definition set_datetime (df : DataFrame) (r : result (list (option Z)))
    : result DataFrame :=
  match r with
  | inl e => inl e
  | inr ts => inr (setitem df "datetime" datetime64 (List.map cell_of_timestamp ts))
  end.

Definition and_then {A B} (r : result A) (k : A -> result B) : result B :=
  match r with inl e => inl e | inr a => k a end.

(** Lines 127 to 136: the two naming conventions. *)
Definition resolve_datetime (df : DataFrame) : result DataFrame :=
  if bool_decide ("Date(dd:mm:yyyy)" ∈ columns df) then
    and_then (getitem df "Date(dd:mm:yyyy)") (fun d =>
    and_then (series_add_scalar d " ") (fun d' =>
    and_then (getitem df "Time(hh:mm:ss)") (fun t =>
    and_then (series_add d' t) (fun s =>
    set_datetime df (to_datetime_format s)))))
  else
    match List.find (Str.contains "Date_") (columns df) with
    | Some date_col =>
        match List.find (Str.contains "Time_") (columns df) with
        | Some time_col =>
            and_then (getitem df date_col) (fun d =>
            and_then (series_add_scalar d " ") (fun d' =>
            and_then (getitem df time_col) (fun t =>
            and_then (series_add d' t) (fun s =>
            set_datetime df (to_datetime s)))))
        | None =>
            and_then (getitem df date_col) (fun d =>
            set_datetime df (to_datetime d))
        end
    | None => inr df
    end.

(** The frame has a date column under one of the two conventions. *)
Definition recognizable (df : DataFrame) : bool :=
  bool_decide ("Date(dd:mm:yyyy)" ∈ columns df)
  || existsb (Str.contains "Date_") (columns df).

(** [df.sort_values(by)] *)
Definition sort_values_by (by_ : string) (df : DataFrame) : result DataFrame :=
  match get_loc by_ (columns df) with
  | Some i =>
      and_then (sort_values i (rows df)) (fun rs =>
      inr (mkDataFrame (columns df) (dtypes df) rs))
  | None => inl (KeyError by_)
  end.

(** Lines 124 to 142: the clean-up of the parsed frame. *)
Definition normalize (df : DataFrame) : result DataFrame :=
  if empty df then inr df
  else
    and_then (resolve_datetime df) (fun df' =>
    if bool_decide ("datetime" ∈ columns df') then sort_values_by "datetime" df'
    else inr df').

(** [lines = response.text.strip().split('\n')] *)
Definition lines_of (body : string) : list string :=
  Str.split Str.LF (Str.strip body).

(** ['\n'.join(lines[data_start:])] *)
Definition data_text (lines : list string) : string :=
  Str.join (String Str.LF EmptyString) (skipn (data_start lines) lines).

(** Lines 103 to 142: from the body of the response to the frame. *)
Definition parse_response (body : string) : result DataFrame :=
  if String.eqb (Str.strip body) "" then inr empty_frame
  else and_then (read_csv (data_text (lines_of body))) normalize.

Definition query (site : string) (start_dt end_dt : date)
    (data_level avg_type : string) : list (string * string) :=
  [("site", site);
   ("year", Str.of_int (year start_dt));
   ("month", Str.of_int (month start_dt));
   ("day", Str.of_int (day start_dt));
   ("year2", Str.of_int (year end_dt));
   ("month2", Str.of_int (month end_dt));
   ("day2", Str.of_int (day end_dt));
   ("AOD" ++ data_level, "1");
   ("AVG", avg_type);
   ("if_no_html", "1")].

Definition get_aod_data (start_date end_date site data_level avg_type : string)
    : M DataFrame :=
  _respect_rate_limit (1 # 1) ;;;
  start_dt <- lift (strptime start_date) ;;
  end_dt <- lift (strptime end_date) ;;
  let params := query site start_dt end_dt data_level avg_type in
  try_except
    (logger_info ("Requesting data for " ++ site ++ " from " ++ start_date
                  ++ " to " ++ end_date) ;;;
     response <- requests_get (mkRequest base_url params (Some 30)) ;;
     lift (raise_for_status base_url response) ;;;
     lift (parse_response (text response)))
    (fun e =>
       match e with
       | RequestException m =>
           logger_error ("Request error: " ++ m) ;;;
           raise (Exception ("Failed to fetch data: " ++ m))
       | _ =>
           logger_error ("Data parsing error: " ++ str_of_exn e) ;;;
           raise (Exception ("Failed to parse data: " ++ str_of_exn e))
       end).

(** The world in which the request of [get_aod_data] is issued: after the
    rate limiter and the log line. *)
Definition world_at_request (start_date end_date site : string) (w : World)
    : World :=
  add_logged (INFO ("Requesting data for " ++ site ++ " from " ++ start_date
                    ++ " to " ++ end_date))
    (fst (_respect_rate_limit (1 # 1) w)).

(** ** app.py: main, up to the display of the data *)

Record Inputs : Set := mkInputs {
  selected_site : string;
  start_date : date;
  end_date : date;
  data_level : string;
  avg_type : string;
  selected_wavelengths : list Z;
  download_data : bool
}.

Definition is_some {A} (o : option A) : bool :=
  match o with Some _ => true | None => false end.

(** The [try] of lines 212 to 243; [true] when [main] goes on. *)
Definition download (i : Inputs) : M bool :=
  try_except
    (raw_data <- get_aod_data (strftime (start_date i)) (strftime (end_date i))
                   (selected_site i) (data_level i) (avg_type i) ;;
     if empty raw_data then
       show (st_error ("No data available for " ++ selected_site i
                       ++ " in the selected date range.")) ;;;
       ret false
     else
       modify (set_aod_data (Some (clean_data raw_data))) ;;;
       show (st_success "Successfully downloaded data points!") ;;;
       ret true)
    (fun e =>
       show (st_error ("Error downloading data: " ++ str_of_exn e)) ;;;
       ret false).

(** Lines 245 to 376. *)
Definition display : M unit :=
  data <- get aod_data ;;
  match data with
  | Some df =>
      if empty df then show (st_warning "No data to display.")
      else show (st_render "data summary, time series, statistics, tables")
  | None => raise (KeyError "aod_data")
  end.

Definition main (i : Inputs) : M unit :=
  sites_df <- st_cache_data (3600 # 1) get_sites_list ;;
  if empty sites_df then
    show (st_error "Failed to load AERONET sites. Please check your internet connection.")
  else if date_gt (start_date i) (end_date i) then
    show (st_error "Start date must be before end date!")
  else if bool_decide (selected_wavelengths i = []) then
    show (st_warning "Please select at least one wavelength.")
  else
    stored <- get aod_data ;;
    (if negb (download_data i) && negb (is_some stored)
     then show (st_render "sites map, site information, instructions")
     else ret tt) ;;;
    if download_data i || is_some stored then
      go_on <- (if download_data i then download i else ret true) ;;
      if go_on then display else ret tt
    else ret tt.

End Client.

(** ** What the code relies on from [sort_values] *)

(** A cell of a [datetime64] column. *)
Definition is_datetime (c : cell) : bool :=
  match c with VTime _ | NaN => true | _ => false end.

(** The order of [sort_values] on timestamps: ascending, NaT last. *)
Definition ts_leb (a b : cell) : bool :=
  match a, b with
  | VTime x, VTime y => x <=? y
  | _, NaN => true
  | _, _ => false
  end.

Definition ts_eqb (a b : cell) : bool := ts_leb a b && ts_leb b a.

Definition by_key (i : nat) (a b : row) : Prop :=
  ts_leb (cell_at i a) (cell_at i b) = true.

(** The documented contract of [DataFrame.sort_values] on a timestamp
    column: it returns the same rows, in ascending order of the key. The
    default [kind='quicksort'] promises nothing on the order of ties. *)
Class SortContract (P : Platform) : Prop := {
  sort_values_returns : forall i rs,
    Forall (fun r => is_datetime (cell_at i r) = true) rs ->
    exists rs', sort_values i rs = inr rs';
  sort_values_perm : forall i rs rs',
    sort_values i rs = inr rs' -> Permutation rs rs';
  sort_values_sorted : forall i rs rs',
    Forall (fun r => is_datetime (cell_at i r) = true) rs ->
    sort_values i rs = inr rs' -> Sorted (by_key i) rs'
}.

(** Stability: the rows of every timestamp stand in their original order. *)
Definition ties_in_order (i : nat) (before after : list row) : Prop :=
  forall k : cell,
    List.filter (fun r => ts_eqb (cell_at i r) k) after
    = List.filter (fun r => ts_eqb (cell_at i r) k) before.

(** What an insertion has to do for a fold of it to sort on column [i]. *)
Definition inserts (i : nat) (ins : row -> list row -> list row) : Prop :=
  forall x l,
    Permutation (x :: l) (ins x l)
    /\ (is_datetime (cell_at i x) = true ->
        Forall (fun r => is_datetime (cell_at i r) = true) l ->
        Sorted (by_key i) l -> Sorted (by_key i) (ins x l)).

(** ** A small platform to run the code on *)

Module Demo.

Definition digit (c : ascii) : option Z :=
  let n := Z.of_nat (Ascii.nat_of_ascii c) in
  if (48 <=? n) && (n <=? 57) then Some (n - 48) else None.

Fixpoint digits (s : string) (acc : Z) : option Z :=
  match s with
  | EmptyString => Some acc
  | String c s' =>
      match digit c with
      | Some d => digits s' (10 * acc + d)
      | None => None
      end
  end.

Definition parse_nat (s : string) : option Z :=
  match s with EmptyString => None | _ => digits s 0 end.

Definition signed (s : string) : bool * string :=
  match s with
  | String c s' => if Ascii.eqb c "-"%char then (true, s') else (false, s)
  | EmptyString => (false, s)
  end.

Definition parse_int (s : string) : option Z :=
  let (neg, body) := signed s in
  option_map (fun z => if neg then - z else z) (parse_nat body).

(** Decimal literals: [-12], [0.25], [-999.0]. *)
Definition parse_decimal (s : string) : option Q :=
  let (neg, body) := signed s in
  let sgn (z : Z) := if neg then - z else z in
  match Str.split "."%char body with
  | [ip] => option_map (fun a => inject_Z (sgn a)) (parse_nat ip)
  | [ip; fp] =>
      match parse_nat ip, parse_nat fp with
      | Some a, Some b =>
          let k := 10 ^ Z.of_nat (String.length fp) in
          Some (Qmake (sgn (a * k + b)) (Z.to_pos k))
      | _, _ => None
      end
  | _ => None
  end.

Definition float_of_str (s : string) : result Q :=
  match parse_decimal s with
  | Some q => inr q
  | None => inl (ValueError ("could not convert string to float: '" ++ s ++ "'"))
  end.

Fixpoint traverse {A B} (f : A -> result B) (l : list A) : result (list B) :=
  match l with
  | [] => inr []
  | x :: l' =>
      match f x with
      | inl e => inl e
      | inr y =>
          match traverse f l' with
          | inl e => inl e
          | inr ys => inr (y :: ys)
          end
      end
  end.

Definition three (sep : ascii) (s : string) : option (Z * Z * Z) :=
  match List.map parse_nat (Str.split sep s) with
  | [Some a; Some b; Some c] => Some (a, b, c)
  | _ => None
  end.

Definition strptime (s : string) : result date :=
  match three "-"%char s with
  | Some (y, m, d) =>
      if (1 <=? m) && (m <=? 12) && (1 <=? d) && (d <=? 31)
      then inr (mkDate y m d)
      else inl (ValueError "day is out of range for month")
  | None => inl (ValueError ("time data '" ++ s ++ "' does not match format '%Y-%m-%d'"))
  end.

Definition two_digits (n : Z) : string :=
  if n <? 10 then "0" ++ Str.of_int n else Str.of_int n.

Definition strftime (d : date) : string :=
  Str.of_int (year d) ++ "-" ++ two_digits (month d) ++ "-" ++ two_digits (day d).

(** Days since 1970-01-01 of a civil date. *)
Definition days_from_civil (y m d : Z) : Z :=
  let y' := if m <=? 2 then y - 1 else y in
  let era := y' / 400 in
  let yoe := y' - era * 400 in
  let doy := (153 * (if 2 <? m then m - 3 else m + 9) + 2) / 5 + d - 1 in
  let doe := yoe * 365 + yoe / 4 - yoe / 100 + doy in
  era * 146097 + doe - 719468.

(** Seconds since the epoch. *)
Definition seconds (y m d hh mm ss : Z) : Z :=
  days_from_civil y m d * 86400 + hh * 3600 + mm * 60 + ss.

(** ['%d:%m:%Y %H:%M:%S'] on one cell. *)
Definition datetime_dmy (c : cell) : result (option Z) :=
  match c with
  | NaN => inr None
  | VStr s =>
      match Str.split " "%char s with
      | [d; t] =>
          match three ":"%char d, three ":"%char t with
          | Some (dd, mo, yy), Some (hh, mi, ss) =>
              inr (Some (seconds yy mo dd hh mi ss))
          | _, _ => inl (ValueError ("time data does not match format: " ++ s))
          end
      | _ => inl (ValueError ("time data does not match format: " ++ s))
      end
  | _ => inl (TypeError "not a string")
  end.

(** Without a format: [yyyy-mm-dd], alone or before [hh:mm:ss]. *)
Definition datetime_iso (c : cell) : result (option Z) :=
  match c with
  | NaN => inr None
  | VStr s =>
      match Str.split " "%char s with
      | [d] =>
          match three "-"%char d with
          | Some (yy, mo, dd) => inr (Some (seconds yy mo dd 0 0 0))
          | None => inl (ValueError ("Unknown datetime string format: " ++ s))
          end
      | [d; t] =>
          match three "-"%char d, three ":"%char t with
          | Some (yy, mo, dd), Some (hh, mi, ss) =>
              inr (Some (seconds yy mo dd hh mi ss))
          | _, _ => inl (ValueError ("Unknown datetime string format: " ++ s))
          end
      | _ => inl (ValueError ("Unknown datetime string format: " ++ s))
      end
  | _ => inl (TypeError "not a string")
  end.

(** *** A reader of plain comma-separated text *)

Definition na_values : list string :=
  [""; "N/A"; "NA"; "NaN"; "nan"; "null"; "NULL"; "n/a"; "#N/A"].

Definition is_na (s : string) : bool := bool_decide (s ∈ na_values).
Definition is_int (s : string) : bool := is_na s || is_some (parse_int s).
Definition is_float (s : string) : bool := is_na s || is_some (parse_decimal s).

Definition infer (col : list string) : dtype :=
  if forallb (fun s => is_some (parse_int s)) col then int64
  else if forallb is_float col then float64
  else object.

Definition convert (d : dtype) (s : string) : cell :=
  if is_na s then NaN
  else match d with
       | int64 => match parse_int s with Some z => VInt z | None => NaN end
       | float64 => match parse_decimal s with Some q => VFloat q | None => NaN end
       | _ => VStr s
       end.

Fixpoint convert_row (ds : list dtype) (fields : list string) : row :=
  match ds with
  | [] => []
  | d :: ds' => convert d (hd EmptyString fields) :: convert_row ds' (tl fields)
  end.

Definition read_csv (text : string) : result DataFrame :=
  match Str.split Str.LF text with
  | [] => inl (ParserError "No columns to parse from file")
  | header :: body =>
      if String.eqb (Str.strip header) "" then
        inl (ParserError "No columns to parse from file")
      else
        let cols := Str.split Str.COMMA header in
        let raw := List.map (Str.split Str.COMMA)
                     (List.filter (fun l => negb (String.eqb l "")) body) in
        if forallb (fun r => (length r <=? length cols)%nat) raw then
          let ds := List.map (fun j => infer (List.map (fun r => nth j r EmptyString) raw))
                      (seq 0 (length cols)) in
          inr (mkDataFrame cols ds (List.map (convert_row ds) raw))
        else inl (ParserError "Error tokenizing data")
  end.

(** *** Two sorts by insertion: both sort, one keeps the ties in order *)

Fixpoint insert_before_ties (i : nat) (x : row) (l : list row) : list row :=
  match l with
  | [] => [x]
  | y :: l' =>
      if ts_leb (cell_at i x) (cell_at i y) then x :: l
      else y :: insert_before_ties i x l'
  end.

Fixpoint insert_after_ties (i : nat) (x : row) (l : list row) : list row :=
  match l with
  | [] => [x]
  | y :: l' =>
      if ts_leb (cell_at i y) (cell_at i x) then y :: insert_after_ties i x l'
      else x :: l
  end.

Definition sort_with (ins : nat -> row -> list row -> list row)
    (i : nat) (rs : list row) : result (list row) :=
  if forallb (fun r => is_datetime (cell_at i r)) rs
  then inr (fold_right (ins i) [] rs)
  else inl (TypeError "this platform sorts timestamps only").

Definition stable_sort := sort_with insert_before_ties.
Definition unstable_sort := sort_with insert_after_ties.

(** The platform, for a sort and a network. *)
Definition platform (sorter : nat -> list row -> result (list row))
    (net : World -> Request -> Q * result Response) : Platform :=
  Build_Platform float_of_str strptime strftime read_csv
    (traverse datetime_dmy) (traverse datetime_iso) sorter net.

Definition world0 : World :=
  mkWorld (0 # 1) (0 # 1) [] [] None None [].

(** Networks: one that is down, one that answers every request with the
    same response. *)
Definition down : World -> Request -> Q * result Response :=
  fun _ _ => (1 # 10, inl (RequestException "Connection refused")).

Definition answers (r : Response) : World -> Request -> Q * result Response :=
  fun _ _ => (1 # 10, inr r).

End Demo.

(** ** Inputs of the examples *)

Module Cases.

Definition quiet : Platform := Demo.platform Demo.stable_sort Demo.down.

Definition C2_body : string :=
  Str.join (String Str.LF "")
    ["AERONET Version 3;"; "GSFC"; "Version 3: AOD Level 1.5"; "notes";
     "Contact: PI"; "UNITS can be found at the site"; "Site,AOD_440nm";
     "GSFC,0.12"].

Definition C2_frame : DataFrame :=
  mkDataFrame ["Site"; "AOD_440nm"] [object; float64]
    [[VStr "GSFC"; VFloat (12 # 100)]].

(** A sort that reverses the ties, on the same platform. *)
Definition shuffling : Platform := Demo.platform Demo.unstable_sort Demo.down.

Definition C3_body : string :=
  Str.join (String Str.LF "")
    ["AERONET Version 3;";
     "Date(dd:mm:yyyy),Time(hh:mm:ss),AOD_440nm";
     "02:01:2020,12:00:00,0.3";
     "01:01:2020,12:00:00,0.1";
     "01:01:2020,12:00:00,0.2"].

Definition C3_raw : DataFrame :=
  mkDataFrame ["Date(dd:mm:yyyy)"; "Time(hh:mm:ss)"; "AOD_440nm"]
    [object; object; float64]
    [[VStr "02:01:2020"; VStr "12:00:00"; VFloat (3 # 10)];
     [VStr "01:01:2020"; VStr "12:00:00"; VFloat (1 # 10)];
     [VStr "01:01:2020"; VStr "12:00:00"; VFloat (2 # 10)]].

(** [C3_raw] with its timestamps, before the sort. *)
Definition C3_resolved : DataFrame :=
  mkDataFrame ["Date(dd:mm:yyyy)"; "Time(hh:mm:ss)"; "AOD_440nm"; "datetime"]
    [object; object; float64; datetime64]
    [[VStr "02:01:2020"; VStr "12:00:00"; VFloat (3 # 10); VTime 1577966400];
     [VStr "01:01:2020"; VStr "12:00:00"; VFloat (1 # 10); VTime 1577880000];
     [VStr "01:01:2020"; VStr "12:00:00"; VFloat (2 # 10); VTime 1577880000]].

(** A server that answers 304 Not Modified, without a body. *)
Definition not_modified : Platform :=
  Demo.platform Demo.stable_sort (Demo.answers (mkResponse 304 "Not Modified" "")).

(** A server that answers 503. *)
Definition unavailable : Platform :=
  Demo.platform Demo.stable_sort
    (Demo.answers (mkResponse 503 "Service Unavailable" "try later")).

(** A server that answers 200 with a blank body. *)
Definition blank : Platform :=
  Demo.platform Demo.stable_sort
    (Demo.answers (mkResponse 200 "OK" (String Str.LF " "))).

(** A server that answers with a sites file. *)
Definition sites_file : string :=
  Str.join (String Str.LF "")
    ["Site_Name,Longitude(decimal_degrees),Latitude(decimal_degrees),Elevation(meters)";
     "GSFC,-76.84,38.99,87.0";
     "Mauna_Loa,-155.58,19.54,"].

Definition online : Platform :=
  Demo.platform Demo.stable_sort (Demo.answers (mkResponse 200 "OK" sites_file)).

(** A server that answers with a sites file whose longitude is no number. *)
Definition garbled : Platform :=
  Demo.platform Demo.stable_sort
    (Demo.answers (mkResponse 200 "OK"
       ("name,lon,lat,elev" ++ String Str.LF "GSFC,west,38.99,87.0"))).

(** The user asks for February to January and presses the button. *)
Definition backwards : Inputs :=
  mkInputs "GSFC" (mkDate 2020 2 1) (mkDate 2020 1 1) "1.5" "10" [440; 500] true.

(** The user asks for January to February and presses the button. *)
Definition forwards : Inputs :=
  mkInputs "GSFC" (mkDate 2020 1 1) (mkDate 2020 2 1) "1.5" "10" [440; 500] true.

(** A table with sentinels in every form. *)
Definition C4_frame : DataFrame :=
  mkDataFrame ["Site"; "AOD_440nm"; "AOD_500nm"; "N[AOD_500nm]"]
    [object; float64; float64; int64]
    [[VStr "N/A"; VFloat (-999 # 1); VFloat (3 # 10); VInt 4];
     [VStr "GSFC"; VFloat (-9990 # 10); NaN; VInt (-999)];
     [VStr "GSFC"; VFloat (1 # 10); VFloat (-999 # 1); VInt (-999)]].

(** The column [0.1, 0.2, null, 0.4]. *)
Definition C5_frame : DataFrame :=
  mkDataFrame ["AOD_440nm"] [float64]
    [[VFloat (1 # 10)]; [VFloat (2 # 10)]; [NaN]; [VFloat (4 # 10)]].

End Cases.

(** ** More inputs of the examples *)

Module Samples.

(** One measurement among nulls. *)
Definition lonely : DataFrame :=
  mkDataFrame ["AOD_500nm"] [float64] [[NaN]; [VFloat (3 # 10)]; [NaN]].

(** A table under the first convention without its time column. *)
Definition date_only : DataFrame :=
  mkDataFrame ["Date(dd:mm:yyyy)"; "AOD_440nm"] [object; float64]
    [[VStr "01:01:2020"; VFloat (1 # 10)]].

(** A server that answers with that table. *)
Definition timeless : Platform :=
  Demo.platform Demo.stable_sort
    (Demo.answers (mkResponse 200 "OK"
       (Str.join (String Str.LF "")
          ["AERONET Version 3;"; "Date(dd:mm:yyyy),AOD_440nm"; "01:01:2020,0.1"]))).

(** A sites frame of one site, and a world that has it in its cache. *)
Definition one_site : DataFrame :=
  mkDataFrame sites_columns [object; float64; float64; float64]
    [[VStr "GSFC"; VFloat (-7684 # 100); VFloat (3899 # 100); VFloat (87 # 1)]].

Definition with_sites : World :=
  set_sites_cache (Some (0 # 1, one_site)) Demo.world0.

End Samples.

(** ** Shapes used in the further properties *)


(** A line of the sites file that the loop passes over: blank, or with
    fewer than four fields. *)
Definition passed_over (line : string) : bool :=
  String.eqb (Str.strip line) "" || (length (Str.split Str.COMMA line) <? 4)%nat.

(** ** app.py: pieces of the display *)

(** Lines 318 and 319: the columns of the table shown and exported. *)
Definition display_cols (aod_data : DataFrame) (aod_columns : gmap Z string)
    (selected_wavelengths : list Z) : list string :=
  ((if bool_decide ("datetime" ∈ columns aod_data) then ["datetime"] else [])
   ++ omap (fun w => aod_columns !! w) selected_wavelengths)%list.

(** [aod_data[col_name].notna().sum()] *)
Definition valid_count (s : list cell) : nat := length (dropna s).

(** Line 351: the share of valid measurements, in percent. *)
Definition completeness (valid_count total_possible : nat) : Q :=
  if (0 <? total_possible)%nat
  then (Series.of_nat valid_count / Series.of_nat total_possible * (100 # 1))%Q
  else 0%Q.

(** One row of the completeness table. *)
Record Completeness : Set := mkCompleteness {
  for_wavelength : Z;
  valid_measurements : nat;
  total_possible : nat;
  percent : Q
}.

(** Lines 344 to 357: the completeness table. *)
Fixpoint completeness_data (aod_data : DataFrame) (aod_columns : gmap Z string)
    (selected_wavelengths : list Z) : result (list Completeness) :=
  match selected_wavelengths with
  | [] => inr []
  | wavelength :: rest =>
      match aod_columns !! wavelength with
      | Some col_name =>
          match getitem aod_data col_name with
          | inl e => inl e
          | inr s =>
              match completeness_data aod_data aod_columns rest with
              | inl e => inl e
              | inr rows_ =>
                  inr (mkCompleteness wavelength (valid_count s)
                         (length (rows aod_data))
                         (completeness (valid_count s) (length (rows aod_data)))
                       :: rows_)
              end
          end
      | None => completeness_data aod_data aod_columns rest
      end
  end.


(** ** plotting.py: AeronetPlotter *)

Inductive Trace : Set :=
| Scatter (x y : list cell) (name : string) (color : string)
| Box (q1 median_ q3 lowerfence upperfence mean_ : Q) (name : string).

(** A figure: its traces, its annotations and the title of its layout. *)
Record Figure : Set := mkFigure {
  data : list Trace;
  annotations : list string;
  title : option string
}.

(** [self.default_colors]: a palette, which is never empty. *)
Definition palette : Set := (string * list string)%type.

(** [self.default_colors[i % len(self.default_colors)]] *)
Definition color_at (default_colors : palette) (i : nat) : string :=
  nth (i mod S (length (snd default_colors)))
    (fst default_colors :: snd default_colors) (fst default_colors).

(** [df[['datetime', col_name]].dropna()]: the rows where both cells are
    present; [KeyError] when a column is missing. *)
Definition complete_pairs (df : DataFrame) (col_name : string)
    : result (list (cell * cell)) :=
  match getitem df "datetime", getitem df col_name with
  | inr xs, inr ys =>
      inr (List.filter (fun p => negb (isna (fst p)) && negb (isna (snd p)))
             (combine xs ys))
  | inl e, _ => inl e
  | _, inl e => inl e
  end.

(** The loop of [plot_aod_timeseries]; [i] is the index of the head of
    [selected_wavelengths]. *)
Fixpoint timeseries_traces (default_colors : palette) (df : DataFrame)
    (aod_columns : gmap Z string) (selected_wavelengths : list Z) (i : nat)
    : result (list Trace) :=
  match selected_wavelengths with
  | [] => inr []
  | wavelength :: rest =>
      match aod_columns !! wavelength with
      | Some col_name =>
          match complete_pairs df col_name with
          | inl e => inl e
          | inr pairs =>
              match timeseries_traces default_colors df aod_columns rest (S i) with
              | inl e => inl e
              | inr traces =>
                  inr (match pairs with
                       | [] => traces
                       | _ => Scatter (List.map fst pairs) (List.map snd pairs)
                                ("AOD " ++ Str.of_int wavelength ++ "nm")
                                (color_at default_colors i) :: traces
                       end)
              end
          end
      | None => timeseries_traces default_colors df aod_columns rest (S i)
      end
  end.

Definition plot_aod_timeseries (default_colors : palette) (df : DataFrame)
    (aod_columns : gmap Z string) (selected_wavelengths : list Z) (title : string)
    : result Figure :=
  if empty df || bool_decide (aod_columns = ∅) then
    inr (mkFigure [] ["No data available for the selected parameters"] None)
  else
    match timeseries_traces default_colors df aod_columns selected_wavelengths O with
    | inl e => inl e
    | inr traces => inr (mkFigure traces [] (Some title))
    end.


(** A scatter trace that can be drawn: as many abscissas as ordinates, at
    least one point, no null. *)
Definition drawable (t : Trace) : Prop :=
  match t with
  | Scatter x y _ _ =>
      length x = length y /\ x <> []
      /\ Forall (fun c => isna c = false) x /\ Forall (fun c => isna c = false) y
  | Box _ _ _ _ _ _ _ => True
  end.


(** * Properties *)

(** ** Sanity checks of the string methods *)

Example strip_ex : Str.strip (String Str.LF "  a b " ++ String Str.LF "") = "a b".
Proof. reflexivity. Qed.

Example split_ex : Str.split Str.COMMA "a,,b," = ["a"; ""; "b"; ""].
Proof. reflexivity. Qed.

Example of_int_ex : List.map Str.of_int aod_wavelengths
  = ["340"; "380"; "440"; "500"; "675"; "870"; "1020"].
Proof. reflexivity. Qed.

Example extract_ex :
  extract_from ["Date(dd:mm:yyyy)"; "AOD_440nm"; "aod500"; "440-870_Angstrom"] ∅
  = <[500 := "aod500"]> (<[440 := "AOD_440nm"]> ∅).
Proof. vm_compute. reflexivity. Qed.

Example read_csv_ex :
  Demo.read_csv ("A,B,C" ++ String Str.LF "1,0.5,x" ++ String Str.LF "-999,N/A,y")
  = inr (mkDataFrame ["A"; "B"; "C"] [int64; float64; object]
           [[VInt 1; VFloat (5 # 10); VStr "x"]; [VInt (-999); NaN; VStr "y"]]).
Proof. vm_compute. reflexivity. Qed.

(** ** Column resolution *)

Section Resolver.

Lemma bind_column_find col ws (m : gmap Z string) :
  bind_column col ws m
  = match List.find (fun w => is_aod_column w col) ws with
    | Some w => <[w := col]> m
    | None => m
    end.
Proof.
  induction ws as [|w ws IH]; simpl; [reflexivity|].
  destruct (is_aod_column w col); [reflexivity | exact IH].
Qed.

Lemma bind_column_lookup col (m : gmap Z string) w :
  bind_column col aod_wavelengths m !! w
  = if filed_under w col then Some col else m !! w.
Proof.
  rewrite bind_column_find. unfold filed_under, wavelength_of.
  destruct (List.find _ aod_wavelengths) as [w'|]; [|reflexivity].
  destruct (Z.eqb_spec w' w) as [->|Hne].
  - apply lookup_insert_eq.
  - apply lookup_insert_ne. exact Hne.
Qed.

Lemma extract_from_lookup cols : forall (m : gmap Z string) w,
  extract_from cols m !! w
  = match last (List.filter (filed_under w) cols) with
    | Some col => Some col
    | None => m !! w
    end.
Proof.
  induction cols as [|c cols IH]; intros m w; [reflexivity|].
  change (extract_from (c :: cols) m)
    with (extract_from cols (bind_column c aod_wavelengths m)).
  rewrite IH, bind_column_lookup. simpl.
  destruct (filed_under w c); [|reflexivity].
  destruct (List.filter (filed_under w) cols) as [|x l] eqn:E; [reflexivity|].
  change (last (c :: x :: l)) with (last (x :: l)).
  destruct (last (x :: l)) eqn:El; [reflexivity|].
  apply last_None in El. discriminate.
Qed.

Lemma find_first {A} (p : A -> bool) l x :
  List.find p l = Some x <->
  exists l1 l2, l = (l1 ++ x :: l2)%list /\ p x = true /\ Forall (fun y => p y = false) l1.
Proof.
  split.
  - induction l as [|a l IH]; simpl; [discriminate|].
    destruct (p a) eqn:Ea.
    + intros [= ->]. exists [], l. repeat split; [exact Ea | constructor].
    + intros Hf. destruct (IH Hf) as (l1 & l2 & -> & Hx & Hall).
      exists (a :: l1), l2. repeat split; [exact Hx|]. constructor; assumption.
  - intros (l1 & l2 & -> & Hx & Hall).
    induction Hall as [|a l1 Ha _ IH]; simpl.
    + rewrite Hx. reflexivity.
    + rewrite Ha. exact IH.
Qed.

(** A column is filed under [w] when [w] is the first wavelength of the
    fixed list whose numeral it contains, next to the AOD marker. *)
Lemma filed_under_iff w col :
  filed_under w col = true <->
  exists before after,
    aod_wavelengths = (before ++ w :: after)%list
    /\ is_aod_column w col = true
    /\ Forall (fun w' => is_aod_column w' col = false) before.
Proof.
  unfold filed_under, wavelength_of. rewrite <- (find_first (fun w => is_aod_column w col)).
  destruct (List.find _ aod_wavelengths) as [w'|].
  - rewrite Z.eqb_eq. split; [intros ->; reflexivity | intros [= ->]; reflexivity].
  - split; discriminate.
Qed.

End Resolver.

(** C1, as the code has it: a wavelength is bound to the LAST column, in
    column order, that is filed under it, that is, whose name contains the
    AOD marker (in any case) and the numeral of this wavelength, and the
    numeral of no earlier wavelength of the fixed list; a wavelength without
    such a column is absent. When several columns match, the rightmost one
    wins: for the columns ["AOD_440nm"; "AOD440_alt"], 440 resolves to
    "AOD440_alt". *)
Theorem C1_rightmost_column_wins :
  (forall (df : DataFrame) (w : Z),
     extract_aod_columns df !! w
     = last (List.filter (filed_under w) (columns df)))
  /\ (forall w col,
        filed_under w col = true <->
        exists before after,
          aod_wavelengths = (before ++ w :: after)%list
          /\ (Str.contains (Str.of_int w) col = true
              /\ Str.contains "AOD" (Str.upper col) = true)
          /\ Forall (fun w' => is_aod_column w' col = false) before)
  /\ extract_aod_columns (mkDataFrame ["AOD_440nm"; "AOD440_alt"] [] []) !! 440
     = Some "AOD440_alt".
Proof.
  split; [|split].
  - intros df w. unfold extract_aod_columns. rewrite extract_from_lookup.
    rewrite lookup_empty. destruct (last _); reflexivity.
  - intros w col. rewrite filed_under_iff.
    split; intros (b & a & E & Hm & Hall); exists b, a;
      (split; [exact E | split; [|exact Hall]]).
    + apply andb_true_iff. exact Hm.
    + apply andb_true_iff in Hm. exact Hm.
  - vm_compute. reflexivity.
Qed.

(** C1 as stated fails: the leftmost match of 440 among
    ["AOD_440nm"; "AOD440_alt"] is "AOD_440nm", the code binds 440 to
    "AOD440_alt". *)
Lemma C1_leftmost_counterexample :
  let df := mkDataFrame ["AOD_440nm"; "AOD440_alt"] [float64; float64] [] in
  leftmost_match 440 (columns df) = Some "AOD_440nm"
  /\ extract_aod_columns df !! 440 = Some "AOD440_alt"
  /\ extract_aod_columns df !! 440 <> leftmost_match 440 (columns df).
Proof.
  vm_compute. repeat split; congruence.
Qed.

(** ** Where the table starts *)

Section DataStart.

Lemma find_header_none lines : forall i,
  Forall (fun l => is_header l = false) lines -> find_header lines i = O.
Proof.
  induction lines as [|l lines IH]; intros i Hall; [reflexivity|].
  inversion Hall as [|? ? Hl Hrest]; subst. simpl. rewrite Hl. apply IH, Hrest.
Qed.

Lemma find_header_first above : forall i line below,
  Forall (fun l => is_header l = false) above ->
  is_header line = true ->
  find_header (above ++ line :: below) i = (i + length above)%nat.
Proof.
  induction above as [|l above IH]; intros i line below Hall Hline; simpl.
  - rewrite Hline. lia.
  - inversion Hall as [|? ? Hl Hrest]; subst. rewrite Hl.
    rewrite IH by assumption. lia.
Qed.

Lemma skipn_length_app {A} (l1 l2 : list A) : skipn (length l1) (l1 ++ l2) = l2.
Proof. induction l1; simpl; [reflexivity | assumption]. Qed.

(** A header on the very first line leaves [data_start] at 0, which the
    code reads as "no header found". *)
Remark header_on_first_line line below :
  is_header line = true ->
  data_start (line :: below) = Nat.min 6 (length below).
Proof.
  intros Hline. unfold data_start. simpl. rewrite Hline. simpl.
  rewrite Nat.sub_0_r. reflexivity.
Qed.

End DataStart.

(** C7, as the code has it: when no line of the response begins with a
    date-column marker, the table is taken to begin at line
    [min(6, number of lines - 1)] (line 6 when there are at least seven
    lines, the last line otherwise); when the first line that begins with a
    marker is not the first line of the response, the table begins at that
    line, however far down it is. *)
Theorem C7_data_start :
  (forall lines,
     Forall (fun l => is_header l = false) lines ->
     data_start lines = Nat.min 6 (length lines - 1))
  /\ (forall above line below,
        above <> [] ->
        Forall (fun l => is_header l = false) above ->
        is_header line = true ->
        data_start (above ++ line :: below)%list = length above
        /\ skipn (data_start (above ++ line :: below)%list) (above ++ line :: below)%list
           = line :: below).
Proof.
  split.
  - intros lines Hall. unfold data_start. rewrite find_header_none by assumption.
    reflexivity.
  - intros above line below Hne Hall Hline.
    assert (E : data_start (above ++ line :: below)%list = length above).
    { unfold data_start. rewrite find_header_first by assumption. simpl.
      destruct above as [|a above]; [congruence | reflexivity]. }
    split; [exact E|]. rewrite E. apply skipn_length_app.
Qed.

Lemma C7_data_start_witness :
  data_start ["a"; "b"; "c"] = 2%nat
  /\ data_start ["AERONET Version 3"; "Date(dd:mm:yyyy),Time(hh:mm:ss),AOD_440nm";
                 "01:01:2020,12:00:00,0.1"] = 1%nat.
Proof.
  split.
  - apply (proj1 C7_data_start ["a"; "b"; "c"]).
    repeat constructor.
  - apply (proj2 C7_data_start ["AERONET Version 3"]
             "Date(dd:mm:yyyy),Time(hh:mm:ss),AOD_440nm"
             ["01:01:2020,12:00:00,0.1"]).
    + discriminate.
    + repeat constructor.
    + reflexivity.
Defined.

(** C7 as stated fails: a response of three lines without a marker has no
    line 6; the table is taken to begin at line 2. *)
Lemma C7_offset_counterexample :
  let body := "a" ++ String Str.LF "b" ++ String Str.LF "c" in
  Forall (fun l => is_header l = false) (lines_of body)
  /\ data_start (lines_of body) = 2%nat
  /\ data_start (lines_of body) <> 6%nat
  /\ data_text (lines_of body) = "c".
Proof.
  vm_compute. repeat split; try discriminate. repeat constructor.
Qed.

(** ** Normalization of the parsed frame *)

Section Normalizer.

Context {P : Platform}.

Lemma find_existsb {A} (p : A -> bool) l :
  existsb p l = false -> List.find p l = None.
Proof.
  induction l as [|a l IH]; simpl; [reflexivity|].
  destruct (p a); simpl; [discriminate | exact IH].
Qed.

Lemma find_is_some {A} (p : A -> bool) l x :
  List.find p l = Some x -> existsb p l = true.
Proof.
  induction l as [|a l IH]; simpl; [discriminate|].
  destruct (p a); simpl; [reflexivity | exact IH].
Qed.

Lemma resolve_datetime_unrecognized df :
  recognizable df = false -> resolve_datetime df = inr df.
Proof.
  unfold recognizable, resolve_datetime. intros Hr.
  apply orb_false_iff in Hr as [Hd He].
  rewrite Hd, (find_existsb _ _ He). reflexivity.
Qed.

Lemma normalize_unrecognized df :
  recognizable df = false -> "datetime" ∉ columns df -> normalize df = inr df.
Proof.
  intros Hr Hdt. unfold normalize. destruct (empty df); [reflexivity|].
  rewrite resolve_datetime_unrecognized by assumption. simpl.
  rewrite bool_decide_eq_false_2 by assumption. reflexivity.
Qed.

Lemma set_datetime_inv df r df' :
  set_datetime df r = inr df' ->
  exists ts, df' = setitem df "datetime" datetime64 (List.map cell_of_timestamp ts).
Proof.
  destruct r as [e|ts]; simpl; [discriminate|]. intros [= <-]. eauto.
Qed.

Lemma and_then_inv {A B} (r : result A) (k : A -> result B) b :
  and_then r k = inr b -> exists a, r = inr a /\ k a = inr b.
Proof. destruct r as [e|a]; simpl; [discriminate|]. eauto. Qed.

Lemma resolve_datetime_recognized df df' :
  recognizable df = true ->
  resolve_datetime df = inr df' ->
  exists ts, df' = setitem df "datetime" datetime64 (List.map cell_of_timestamp ts).
Proof.
  unfold recognizable, resolve_datetime. intros Hr.
  destruct (bool_decide _) eqn:Hd.
  - intros Hres. repeat (apply and_then_inv in Hres as (? & _ & Hres)).
    first [eapply set_datetime_inv, Hres | injection Hres as <-; eauto].
  - simpl in Hr. destruct (List.find (Str.contains "Date_") _) as [dc|] eqn:Hf.
    + destruct (List.find (Str.contains "Time_") _) as [tc|]; intros Hres.
      * repeat (apply and_then_inv in Hres as (? & _ & Hres)).
        first [eapply set_datetime_inv, Hres | injection Hres as <-; eauto].
      * repeat (apply and_then_inv in Hres as (? & _ & Hres)).
        first [eapply set_datetime_inv, Hres | injection Hres as <-; eauto].
    + intros _. apply existsb_exists in Hr as (x & Hin & Hx).
      eapply find_none in Hf; [|exact Hin]. simpl in Hf. congruence.
Qed.

Lemma get_loc_None name cols : get_loc name cols = None <-> name ∉ cols.
Proof.
  induction cols as [|c cols IH]; simpl.
  - split; [intros _ Hin; inversion Hin | reflexivity].
  - destruct (String.eqb_spec c name) as [->|Hne].
    + split; [discriminate | intros Hn; exfalso; apply Hn; left].
    + destruct (get_loc name cols); simpl.
      * split; [discriminate|]. intros Hn. exfalso. apply Hn. right.
        destruct (decide (name ∈ cols)) as [Hin|Hnin]; [exact Hin|].
        apply IH in Hnin. discriminate.
      * split; [|reflexivity]. intros _ Hin.
        apply elem_of_cons in Hin as [->|Hin]; [congruence|].
        revert Hin. apply IH. reflexivity.
Qed.

Lemma get_loc_new name cols :
  get_loc name cols = None -> get_loc name (cols ++ [name]) = Some (length cols).
Proof.
  induction cols as [|c cols IH]; simpl.
  - rewrite String.eqb_refl. reflexivity.
  - destruct (String.eqb c name); [discriminate|].
    destruct (get_loc name cols); [discriminate|]. intros _.
    rewrite IH by reflexivity. reflexivity.
Qed.

Lemma cell_at_set_nth i v : forall r, cell_at i (set_nth NaN i v r) = v.
Proof.
  unfold cell_at. induction i as [|i IH]; intros [|c r]; simpl; auto.
Qed.

Lemma set_column_datetime i rs : forall vals,
  Forall (fun c => is_datetime c = true) vals ->
  Forall (fun r => is_datetime (cell_at i r) = true) (set_column i vals rs).
Proof.
  induction rs as [|r rs IH]; intros vals Hv; simpl; constructor.
  - rewrite cell_at_set_nth. destruct Hv; [reflexivity | assumption].
  - apply IH. destruct Hv; [constructor | assumption].
Qed.

Lemma timestamps_datetime ts :
  Forall (fun c => is_datetime c = true) (List.map cell_of_timestamp ts).
Proof. induction ts as [|[t|] ts IH]; simpl; constructor; auto. Qed.

Lemma setitem_datetime df ts :
  let df' := setitem df "datetime" datetime64 (List.map cell_of_timestamp ts) in
  exists i, get_loc "datetime" (columns df') = Some i
            /\ Forall (fun r => is_datetime (cell_at i r) = true) (rows df').
Proof.
  unfold setitem. destruct (get_loc "datetime" (columns df)) as [i|] eqn:E; simpl.
  - exists i. split; [exact E|]. apply set_column_datetime, timestamps_datetime.
  - exists (length (columns df)). split; [apply get_loc_new, E|].
    apply set_column_datetime, timestamps_datetime.
Qed.

End Normalizer.

(** C2, as the code has it: a response that parses to a frame with at least
    one row and one column but with no date column under either convention
    (and no column named "datetime") makes normalization return that frame
    as parsed, rows in the order of the response and no timestamp column; it
    is not an error. *)
Theorem C2_unrecognized_dates_pass_through {P : Platform} (body : string) (df : DataFrame) :
  Str.strip body <> "" ->
  read_csv (data_text (lines_of body)) = inr df ->
  empty df = false ->
  recognizable df = false ->
  "datetime" ∉ columns df ->
  normalize df = inr df /\ parse_response body = inr df.
Proof.
  intros Hbody Hread _ Hr Hdt.
  pose proof (normalize_unrecognized df Hr Hdt) as Hn. split; [exact Hn|].
  unfold parse_response. destruct (String.eqb_spec (Str.strip body) "") as [E|_].
  - contradiction.
  - rewrite Hread. exact Hn.
Qed.

Lemma C2_unrecognized_dates_witness :
  normalize (P := Cases.quiet) Cases.C2_frame = inr Cases.C2_frame
  /\ parse_response (P := Cases.quiet) Cases.C2_body
     = inr Cases.C2_frame.
Proof.
  apply (C2_unrecognized_dates_pass_through
           (P := Cases.quiet) Cases.C2_body Cases.C2_frame).
  - vm_compute. discriminate.
  - vm_compute. reflexivity.
  - reflexivity.
  - vm_compute. reflexivity.
  - intros Hin. vm_compute in Hin. revert Hin. apply not_elem_of_cons.
    split; [discriminate|]. apply not_elem_of_cons. split; [discriminate|].
    apply not_elem_of_nil.
Defined.

(** C2 as stated fails: this response has a data row and no date column
    under either convention, and normalization returns its table. *)
Lemma C2_no_error_counterexample :
  exists df,
    parse_response (P := Cases.quiet) Cases.C2_body = inr df
    /\ rows df = [[VStr "GSFC"; VFloat (12 # 100)]]
    /\ recognizable df = false.
Proof.
  exists Cases.C2_frame. vm_compute. repeat split; reflexivity.
Qed.

(** ** The sort *)

Section Sorting.

Lemma ts_leb_total a b :
  is_datetime a = true -> is_datetime b = true ->
  ts_leb a b = false -> ts_leb b a = true.
Proof.
  destruct a, b; simpl; try discriminate; try reflexivity.
  intros _ _ Hab. apply Z.leb_gt in Hab. apply Z.leb_le. lia.
Qed.

Variable i : nat.

Let dt (r : row) : Prop := is_datetime (cell_at i r) = true.

Lemma HdRel_insert (y x : row) l l' :
  by_key i y x -> HdRel (by_key i) y l ->
  (l' = x :: l \/ exists z l0 l1, l = z :: l0 /\ l' = z :: l1) ->
  HdRel (by_key i) y l'.
Proof.
  intros Hyx Hhd [->|(z & l0 & l1 & -> & ->)].
  - constructor. exact Hyx.
  - inversion Hhd; subst. constructor. assumption.
Qed.

Lemma insert_before_ties_inserts : inserts i (Demo.insert_before_ties i).
Proof.
  intros x l. split.
  - induction l as [|y l IH]; simpl; [reflexivity|].
    destruct (ts_leb _ _); [reflexivity|].
    rewrite perm_swap. apply perm_skip, IH.
  - intros Hx Hl Hs. induction l as [|y l IH]; simpl.
    + repeat constructor.
    + destruct (ts_leb (cell_at i x) (cell_at i y)) eqn:E.
      * constructor; [exact Hs | constructor; exact E].
      * inversion Hl as [|? ? Hy Hl']; subst. inversion Hs as [|? ? Hs' Hhd]; subst.
        assert (Hyx : by_key i y x) by (apply ts_leb_total; assumption).
        constructor; [apply IH; assumption|].
        eapply HdRel_insert; [exact Hyx | exact Hhd |].
        destruct l as [|z l]; simpl; [left; reflexivity|].
        destruct (ts_leb (cell_at i x) (cell_at i z)); [left; reflexivity|].
        right. eauto.
Qed.

Lemma insert_after_ties_inserts : inserts i (Demo.insert_after_ties i).
Proof.
  intros x l. split.
  - induction l as [|y l IH]; simpl; [reflexivity|].
    destruct (ts_leb _ _); [|reflexivity].
    rewrite perm_swap. apply perm_skip, IH.
  - intros Hx Hl Hs. induction l as [|y l IH]; simpl.
    + repeat constructor.
    + inversion Hl as [|? ? Hy Hl']; subst.
      destruct (ts_leb (cell_at i y) (cell_at i x)) eqn:E.
      * inversion Hs as [|? ? Hs' Hhd]; subst.
        constructor; [apply IH; assumption|].
        eapply HdRel_insert; [exact E | exact Hhd |].
        destruct l as [|z l]; simpl; [left; reflexivity|].
        destruct (ts_leb (cell_at i z) (cell_at i x)); [|left; reflexivity].
        right. eauto.
      * constructor; [exact Hs|]. constructor. apply ts_leb_total; assumption.
Qed.

Lemma fold_inserts ins (Hins : inserts i ins) rs :
  Permutation rs (fold_right ins [] rs)
  /\ (Forall dt rs -> Sorted (by_key i) (fold_right ins [] rs)).
Proof.
  induction rs as [|r rs [IHp IHs]]; simpl.
  - split; [reflexivity | constructor].
  - destruct (Hins r (fold_right ins [] rs)) as [Hp Hs]. split.
    + rewrite <- Hp. apply perm_skip, IHp.
    + intros Hall. inversion Hall as [|? ? Hr Hrs]; subst.
      apply Hs; [exact Hr | | apply IHs, Hrs].
      eapply Permutation_Forall; [exact IHp | exact Hrs].
Qed.

End Sorting.

Lemma sort_with_contract ins net :
  (forall i, inserts i (ins i)) ->
  SortContract (Demo.platform (Demo.sort_with ins) net).
Proof.
  intros Hins. split; simpl; unfold Demo.sort_with.
  - intros i rs Hall. exists (fold_right (ins i) [] rs).
    rewrite (proj2 (forallb_forall _ _)); [reflexivity|].
    intros r Hin. rewrite Forall_forall in Hall. apply Hall.
    apply list_elem_of_In. exact Hin.
  - intros i rs rs'. destruct (forallb _ rs); [|discriminate].
    intros [= <-]. apply (proj1 (fold_inserts i (ins i) (Hins i) rs)).
  - intros i rs rs' Hall. destruct (forallb _ rs); [|discriminate].
    intros [= <-]. apply (proj2 (fold_inserts i (ins i) (Hins i) rs)), Hall.
Qed.

Lemma stable_sort_contract net : SortContract (Demo.platform Demo.stable_sort net).
Proof. apply sort_with_contract. intros i. apply insert_before_ties_inserts. Qed.

Lemma unstable_sort_contract net : SortContract (Demo.platform Demo.unstable_sort net).
Proof. apply sort_with_contract. intros i. apply insert_after_ties_inserts. Qed.

(** C3, as the code has it: when the parsed table has a date column under
    one of the two conventions and its timestamps are resolved, the
    normalized table holds the same rows, sorted ascending by the resolved
    timestamp: every row's timestamp is at most the next row's, with the
    rows without a timestamp (NaT) last. The code calls [sort_values] with
    its default algorithm, which fixes no order among rows of equal
    timestamp. *)
Theorem C3_sorted_by_timestamp {P : Platform} (C : SortContract P)
    (raw resolved : DataFrame) :
  empty raw = false ->
  recognizable raw = true ->
  resolve_datetime raw = inr resolved ->
  exists df i,
    normalize raw = inr df
    /\ columns df = columns resolved
    /\ get_loc "datetime" (columns df) = Some i
    /\ Permutation (rows resolved) (rows df)
    /\ Sorted (by_key i) (rows df).
Proof.
  intros Hne Hrec Hres.
  destruct (resolve_datetime_recognized _ _ Hrec Hres) as [ts ->].
  destruct (setitem_datetime raw ts) as (i & Hloc & Hdt).
  set (df' := setitem raw "datetime" datetime64 (List.map cell_of_timestamp ts)) in *.
  destruct (sort_values_returns i (rows df') Hdt) as [rs Hsort].
  exists (mkDataFrame (columns df') (dtypes df') rs), i.
  split; [|split; [reflexivity | split; [exact Hloc | split]]].
  - unfold normalize. rewrite Hne, Hres. simpl.
    rewrite bool_decide_eq_true_2.
    + unfold sort_values_by. rewrite Hloc, Hsort. reflexivity.
    + destruct (decide ("datetime" ∈ columns df')) as [Hin|Hnin]; [exact Hin|].
      apply get_loc_None in Hnin. congruence.
  - simpl. eapply sort_values_perm, Hsort.
  - simpl. eapply sort_values_sorted; [exact Hdt | exact Hsort].
Qed.

Lemma C3_sorted_by_timestamp_witness :
  exists df i,
    normalize (P := Cases.quiet) Cases.C3_raw = inr df
    /\ columns df = columns Cases.C3_resolved
    /\ get_loc "datetime" (columns df) = Some i
    /\ Permutation (rows Cases.C3_resolved) (rows df)
    /\ Sorted (by_key i) (rows df).
Proof.
  apply (C3_sorted_by_timestamp (P := Cases.quiet) (stable_sort_contract Demo.down)
           Cases.C3_raw Cases.C3_resolved).
  - reflexivity.
  - vm_compute. reflexivity.
  - vm_compute. reflexivity.
Defined.

(** C3 as stated fails in its second half: a sort that meets the contract
    of [sort_values] may swap two rows of equal timestamp. Here the rows of
    2020-01-01 12:00:00 arrive with AOD 0.1 then 0.2 and leave with 0.2 then
    0.1. *)
Lemma C3_ties_counterexample :
  SortContract Cases.shuffling
  /\ read_csv (Platform := Cases.shuffling) (data_text (lines_of Cases.C3_body))
     = inr Cases.C3_raw
  /\ resolve_datetime (P := Cases.shuffling) Cases.C3_raw = inr Cases.C3_resolved
  /\ (exists df,
        parse_response (P := Cases.shuffling) Cases.C3_body = inr df
        /\ List.map (cell_at 2) (rows df)
           = [VFloat (2 # 10); VFloat (1 # 10); VFloat (3 # 10)]
        /\ ~ ties_in_order 3 (rows Cases.C3_resolved) (rows df)).
Proof.
  split; [apply unstable_sort_contract|].
  split; [vm_compute; reflexivity|].
  split; [vm_compute; reflexivity|].
  eexists. split; [vm_compute; reflexivity|].
  split; [reflexivity|].
  intros Hties. specialize (Hties (VTime 1577880000)).
  vm_compute in Hties. discriminate.
Qed.

(** ** The measurement request *)

Section Fetcher.

Context {P : Platform}.

Lemma _respect_rate_limit_returns delay w :
  _respect_rate_limit delay w = (fst (_respect_rate_limit delay w), inr tt)
  /\ sent (fst (_respect_rate_limit delay w)) = sent w
  /\ logged (fst (_respect_rate_limit delay w)) = logged w.
Proof.
  unfold _respect_rate_limit, bind, get, modify, sleep, ret. simpl.
  destruct (Qlt_le_dec _ _); simpl; auto.
Qed.

Lemma raise_for_status_error u r :
  400 <= status_code r < 600 ->
  exists cause, raise_for_status u r = inl (RequestException cause).
Proof.
  intros Hs. unfold raise_for_status.
  destruct ((400 <=? status_code r) && (status_code r <? 500)) eqn:E4; [eauto|].
  destruct ((500 <=? status_code r) && (status_code r <? 600)) eqn:E5; [eauto|].
  exfalso. apply andb_false_iff in E4, E5.
  rewrite Z.leb_gt, Z.ltb_ge in E4, E5. lia.
Qed.

Lemma raise_for_status_ok u r :
  ~ 400 <= status_code r < 600 -> raise_for_status u r = inr tt.
Proof.
  intros Hs. unfold raise_for_status.
  destruct ((400 <=? status_code r) && (status_code r <? 500)) eqn:E4.
  { exfalso. apply andb_true_iff in E4. rewrite Z.leb_le, Z.ltb_lt in E4. lia. }
  destruct ((500 <=? status_code r) && (status_code r <? 600)) eqn:E5.
  { exfalso. apply andb_true_iff in E5. rewrite Z.leb_le, Z.ltb_lt in E5. lia. }
  reflexivity.
Qed.

Variables start_date end_date site data_level avg_type : string.
Variables start_dt end_dt : date.
Hypothesis Hstart : strptime start_date = inr start_dt.
Hypothesis Hend : strptime end_date = inr end_dt.

Let request : Request :=
  mkRequest base_url (query site start_dt end_dt data_level avg_type) (Some 30).

(** [get_aod_data] once the dates are parsed: the request, then the
    handlers. *)
Lemma get_aod_data_unfold w :
  get_aod_data start_date end_date site data_level avg_type w
  = let w1 := world_at_request start_date end_date site w in
    let (d, out) := http_get w1 request in
    let w2 := set_clock (clock w1 + d)%Q (add_sent request w1) in
    match and_then out (fun response =>
          and_then (raise_for_status base_url response) (fun _ =>
          parse_response (text response))) with
    | inr df => (w2, inr df)
    | inl (RequestException m) =>
        (add_logged (ERROR ("Request error: " ++ m)) w2,
         inl (Exception ("Failed to fetch data: " ++ m)))
    | inl e =>
        (add_logged (ERROR ("Data parsing error: " ++ str_of_exn e)) w2,
         inl (Exception ("Failed to parse data: " ++ str_of_exn e)))
    end.
Proof.
  unfold get_aod_data, world_at_request.
  destruct (_respect_rate_limit_returns (1 # 1) w) as (Hr & _ & _).
  unfold bind at 1. rewrite Hr.
  unfold bind, lift. rewrite Hstart, Hend.
  unfold try_except, bind, logger_info, modify, requests_get, lift.
  fold request. cbv zeta.
  destruct (http_get _ request) as [d [e|response]]; simpl.
  - destruct e; reflexivity.
  - destruct (raise_for_status base_url response) as [e|[]]; simpl.
    + destruct e; reflexivity.
    + destruct (parse_response (text response)) as [e|df]; simpl; [|reflexivity].
      destruct e; reflexivity.
Qed.

Lemma sent_at_request w :
  sent (world_at_request start_date end_date site w) = sent w.
Proof.
  unfold world_at_request. simpl.
  apply (_respect_rate_limit_returns (1 # 1) w).
Qed.

End Fetcher.

(** C6, as the code has it: when the transport raises (DNS failure,
    connection refused, timeout) or the response has a status from 400 to
    599, [get_aod_data] raises an exception whose message is "Failed to
    fetch data: " followed by the cause, and it has issued exactly one
    request (no retry); when the response has any other status and a blank
    body, it returns the empty table. *)
Theorem C6_fetch_failures {P : Platform}
    (start_date end_date site data_level avg_type : string)
    (start_dt end_dt : date) (w : World) :
  strptime start_date = inr start_dt ->
  strptime end_date = inr end_dt ->
  let request :=
    mkRequest base_url (query site start_dt end_dt data_level avg_type) (Some 30) in
  let at_request := world_at_request start_date end_date site w in
  let run := get_aod_data start_date end_date site data_level avg_type w in
  (forall d cause,
     http_get at_request request = (d, inl (RequestException cause)) ->
     snd run = inl (Exception ("Failed to fetch data: " ++ cause))
     /\ sent (fst run) = (sent w ++ [request])%list)
  /\ (forall d response,
        http_get at_request request = (d, inr response) ->
        400 <= status_code response < 600 ->
        (exists cause,
           raise_for_status base_url response = inl (RequestException cause)
           /\ snd run = inl (Exception ("Failed to fetch data: " ++ cause)))
        /\ sent (fst run) = (sent w ++ [request])%list)
  /\ (forall d response,
        http_get at_request request = (d, inr response) ->
        ~ 400 <= status_code response < 600 ->
        Str.strip (text response) = "" ->
        snd run = inr empty_frame
        /\ sent (fst run) = (sent w ++ [request])%list).
Proof.
  intros Hstart Hend request at_request run.
  assert (Hrun : run = _) by (apply (get_aod_data_unfold _ _ _ _ _ _ _ Hstart Hend w)).
  fold request at_request in Hrun. cbv zeta in Hrun.
  pose proof (sent_at_request start_date end_date site w) as Hsent.
  fold at_request in Hsent. clearbody run at_request request.
  split; [|split].
  - intros d cause Hget. rewrite Hrun, Hget. simpl. rewrite Hsent. auto.
  - intros d response Hget Hstatus.
    destruct (raise_for_status_error base_url response Hstatus) as [cause Hc].
    rewrite Hrun, Hget. simpl. rewrite Hc. simpl. rewrite Hsent. eauto.
  - intros d response Hget Hstatus Hblank.
    rewrite Hrun, Hget. simpl.
    rewrite (raise_for_status_ok base_url response Hstatus). simpl.
    unfold parse_response. rewrite Hblank. simpl. rewrite Hsent. auto.
Qed.

Lemma C6_fetch_failures_witness :
  let run (P : Platform) :=
    get_aod_data (P := P) "2020-01-01" "2020-01-31" "GSFC" "1.5" "10" Demo.world0 in
  snd (run Cases.quiet) = inl (Exception "Failed to fetch data: Connection refused")
  /\ length (sent (fst (run Cases.quiet))) = 1%nat
  /\ (exists cause, snd (run Cases.unavailable)
                    = inl (Exception ("Failed to fetch data: " ++ cause)))
  /\ snd (run Cases.blank) = inr empty_frame.
Proof.
  intros run.
  pose proof (C6_fetch_failures (P := Cases.quiet)
                "2020-01-01" "2020-01-31" "GSFC" "1.5" "10"
                (mkDate 2020 1 1) (mkDate 2020 1 31) Demo.world0
                eq_refl eq_refl) as (Hdown & _ & _).
  pose proof (C6_fetch_failures (P := Cases.unavailable)
                "2020-01-01" "2020-01-31" "GSFC" "1.5" "10"
                (mkDate 2020 1 1) (mkDate 2020 1 31) Demo.world0
                eq_refl eq_refl) as (_ & Hstatus & _).
  pose proof (C6_fetch_failures (P := Cases.blank)
                "2020-01-01" "2020-01-31" "GSFC" "1.5" "10"
                (mkDate 2020 1 1) (mkDate 2020 1 31) Demo.world0
                eq_refl eq_refl) as (_ & _ & Hblank).
  destruct (Hdown (1 # 10)%Q "Connection refused" eq_refl) as [Hd1 Hd2].
  destruct (Hstatus (1 # 10)%Q (mkResponse 503 "Service Unavailable" "try later")
              eq_refl ltac:(simpl; lia)) as [(cause & _ & Hs1) _].
  destruct (Hblank (1 # 10)%Q (mkResponse 200 "OK" (String Str.LF " "))
              eq_refl ltac:(simpl; lia) eq_refl) as [Hb1 _].
  split; [exact Hd1|]. split; [unfold run; rewrite Hd2; reflexivity|].
  split; [exists cause; exact Hs1 | exact Hb1].
Defined.

(** C6 as stated fails for a status that is neither 2xx nor an error for
    [raise_for_status]: on 304 with an empty body [get_aod_data] returns
    the empty table. *)
Lemma C6_status_counterexample :
  let run :=
    get_aod_data (P := Cases.not_modified) "2020-01-01" "2020-01-31" "GSFC" "1.5" "10"
      Demo.world0 in
  snd (http_get (Platform := Cases.not_modified) Demo.world0
         (mkRequest base_url [] (Some 30)))
  = inr (mkResponse 304 "Not Modified" "")
  /\ snd run = inr empty_frame
  /\ length (sent (fst run)) = 1%nat.
Proof.
  vm_compute. repeat split; reflexivity.
Qed.

(** ** The sites directory *)

Section Directory.

Context {P : Platform}.

Let request : Request := mkRequest sites_url [] None.

Lemma fetch_sites_unfold w :
  fetch_sites w
  = let (d, out) := http_get w request in
    (set_clock (clock w + d)%Q (add_sent request w),
     and_then out (fun response =>
     and_then (raise_for_status sites_url response) (fun _ =>
     and_then (parse_site_lines (tl (Str.split Str.LF (Str.strip (text response)))))
       (fun sites_data => inr (sites_frame sites_data))))).
Proof.
  unfold fetch_sites, bind, requests_get, lift, ret. fold request.
  destruct (http_get w request) as [d [e|response]]; simpl; [reflexivity|].
  destruct (raise_for_status sites_url response) as [e|[]]; simpl; [reflexivity|].
  destruct (parse_site_lines _); reflexivity.
Qed.

Lemma fetch_sites_world w :
  sent (fst (fetch_sites w)) = (sent w ++ [request])%list
  /\ logged (fst (fetch_sites w)) = logged w
  /\ aod_data (fst (fetch_sites w)) = aod_data w.
Proof.
  rewrite fetch_sites_unfold. destruct (http_get w request). simpl. auto.
Qed.

Lemma get_sites_list_unfold w :
  get_sites_list w
  = match snd (fetch_sites w) with
    | inr df => (fst (fetch_sites w), inr df)
    | inl e =>
        (add_logged (ERROR ("Error fetching sites list: " ++ str_of_exn e))
           (fst (fetch_sites w)),
         inr no_sites)
    end.
Proof.
  unfold get_sites_list, try_except.
  destruct (fetch_sites w) as [w' [e|df]]; reflexivity.
Qed.

Lemma get_sites_list_returns w :
  exists df, snd (get_sites_list w) = inr df
             /\ sent (fst (get_sites_list w)) = (sent w ++ [request])%list
             /\ aod_data (fst (get_sites_list w)) = aod_data w.
Proof.
  rewrite get_sites_list_unfold. destruct (fetch_sites_world w) as (Hs & _ & Ha).
  destruct (snd (fetch_sites w)) as [e|df]; simpl; eauto.
Qed.

Lemma st_cache_data_returns ttl w :
  exists df extra,
    snd (st_cache_data ttl get_sites_list w) = inr df
    /\ sent (fst (st_cache_data ttl get_sites_list w)) = (sent w ++ extra)%list
    /\ Forall (fun r => url r = sites_url) extra
    /\ aod_data (fst (st_cache_data ttl get_sites_list w)) = aod_data w.
Proof.
  destruct (get_sites_list_returns w) as (df & Hdf & Hsent & Hdata).
  assert (Hhit : forall cached : DataFrame,
            exists df extra,
              snd (w, inr cached : result DataFrame) = inr df
              /\ sent (fst (w, inr cached : result DataFrame)) = (sent w ++ extra)%list
              /\ Forall (fun r => url r = sites_url) extra
              /\ aod_data (fst (w, inr cached : result DataFrame)) = aod_data w).
  { intros cached. exists cached, []. simpl. rewrite app_nil_r.
    repeat split. constructor. }
  unfold st_cache_data, bind, get, modify, ret. cbv beta iota.
  destruct (sites_cache w) as [[t cached]|]; [destruct (Qlt_le_dec _ _)|];
    try apply Hhit;
    (destruct (get_sites_list w) as [w' r]; simpl in Hdf, Hsent, Hdata; subst r;
     exists df, [request]; simpl; split; [reflexivity|]; split; [exact Hsent|];
     split; [repeat constructor | exact Hdata]).
Qed.

End Directory.

(** C8: [get_sites_list] always returns a frame and never raises. When the
    transport raises, when the status is an error status, or when a
    coordinate of some line is not a number, the frame it returns has no
    rows and the failure is logged as an error; behind the cache it never
    raises either. *)
Theorem C8_sites_never_raise {P : Platform} (w : World) :
  let request := mkRequest sites_url [] None in
  let failed (e : exn) :=
    snd (get_sites_list w) = inr no_sites
    /\ rows no_sites = []
    /\ empty no_sites = true
    /\ logged (fst (get_sites_list w))
       = (logged w ++ [ERROR ("Error fetching sites list: " ++ str_of_exn e)])%list in
  (exists df, snd (get_sites_list w) = inr df)
  /\ (forall ttl, exists df, snd (st_cache_data ttl get_sites_list w) = inr df)
  /\ (forall e, snd (fetch_sites w) = inl e -> failed e)
  /\ (forall d e, http_get w request = (d, inl e) -> failed e)
  /\ (forall d response,
        http_get w request = (d, inr response) ->
        400 <= status_code response < 600 ->
        exists e, failed e)
  /\ (forall d response e,
        http_get w request = (d, inr response) ->
        ~ 400 <= status_code response < 600 ->
        parse_site_lines (tl (Str.split Str.LF (Str.strip (text response)))) = inl e ->
        failed e).
Proof.
  intros request failed.
  assert (Hfail : forall e, snd (fetch_sites w) = inl e -> failed e).
  { intros e He. unfold failed. rewrite get_sites_list_unfold, He. simpl.
    destruct (fetch_sites_world w) as (_ & -> & _). auto. }
  split; [|split; [|split; [exact Hfail|split; [|split]]]].
  - destruct (get_sites_list_returns w) as (df & Hdf & _). eauto.
  - intros ttl. destruct (st_cache_data_returns ttl w) as (df & extra & Hdf & _). eauto.
  - intros d e Hget. apply Hfail. rewrite fetch_sites_unfold.
    fold request. rewrite Hget. reflexivity.
  - intros d response Hget Hstatus.
    destruct (raise_for_status_error sites_url response Hstatus) as [cause Hc].
    exists (RequestException cause). apply Hfail. rewrite fetch_sites_unfold.
    fold request. rewrite Hget. simpl. rewrite Hc. reflexivity.
  - intros d response e Hget Hstatus Hparse. apply Hfail. rewrite fetch_sites_unfold.
    fold request. rewrite Hget. simpl.
    rewrite (raise_for_status_ok sites_url response Hstatus). simpl.
    rewrite Hparse. reflexivity.
Qed.

Lemma C8_sites_never_raise_witness :
  (snd (get_sites_list (P := Cases.quiet) Demo.world0) = inr no_sites
   /\ logged (fst (get_sites_list (P := Cases.quiet) Demo.world0))
      = [ERROR "Error fetching sites list: Connection refused"])
  /\ (snd (get_sites_list (P := Cases.garbled) Demo.world0) = inr no_sites
      /\ logged (fst (get_sites_list (P := Cases.garbled) Demo.world0))
         = [ERROR "Error fetching sites list: could not convert string to float: 'west'"]).
Proof.
  split.
  - destruct (C8_sites_never_raise (P := Cases.quiet) Demo.world0)
      as (_ & _ & _ & Hdown & _).
    destruct (Hdown (1 # 10)%Q (RequestException "Connection refused") eq_refl)
      as (Hr & _ & _ & Hl).
    split; [exact Hr | exact Hl].
  - destruct (C8_sites_never_raise (P := Cases.garbled) Demo.world0)
      as (_ & _ & _ & _ & _ & Hparse).
    destruct (Hparse (1 # 10)%Q
                (mkResponse 200 "OK"
                   ("name,lon,lat,elev" ++ String Str.LF "GSFC,west,38.99,87.0"))
                (ValueError "could not convert string to float: 'west'")
                eq_refl ltac:(simpl; lia) eq_refl)
      as (Hr & _ & _ & Hl).
    split; [exact Hr | exact Hl].
Defined.

Example get_sites_list_ex :
  snd (get_sites_list (P := Cases.online) Demo.world0)
  = inr (mkDataFrame sites_columns [object; float64; float64; float64]
           [[VStr "GSFC"; VFloat (-7684 # 100); VFloat (3899 # 100); VFloat (870 # 10)];
            [VStr "Mauna_Loa"; VFloat (-15558 # 100); VFloat (1954 # 100); VFloat 0]]).
Proof. vm_compute. reflexivity. Qed.

(** ** The guard on the dates *)

(** [get_aod_data] does not compare the dates itself: the guard is in
    [main]. *)
Remark get_aod_data_does_not_validate :
  List.map url
    (sent (fst (get_aod_data (P := Cases.online) "2020-02-01" "2020-01-01" "GSFC"
                  "1.5" "10" Demo.world0)))
  = [base_url].
Proof. vm_compute. reflexivity. Qed.

(** C9: when the start date is strictly after the end date, [main] stops
    with an error message, at the validation of the dates at the latest: the
    only request a run may issue is the one for the sites directory, no
    request goes to the measurement endpoint, and no data is stored. *)
Theorem C9_no_request_for_backwards_dates {P : Platform} (i : Inputs) (w : World) :
  date_gt (start_date i) (end_date i) = true ->
  exists extra,
    sent (fst (main i w)) = (sent w ++ extra)%list
    /\ Forall (fun r => url r = sites_url) extra
    /\ Forall (fun r => url r <> base_url) extra
    /\ aod_data (fst (main i w)) = aod_data w
    /\ exists msg, last (shown (fst (main i w))) = Some (st_error msg).
Proof.
  intros Hgt.
  destruct (st_cache_data_returns (3600 # 1) w)
    as (df & extra & Hdf & Hsent & Hall & Hdata).
  exists extra.
  assert (Hstop : exists msg,
            fst (main i w)
            = add_shown (st_error msg) (fst (st_cache_data (3600 # 1) get_sites_list w))).
  { unfold main, bind at 1.
    destruct (st_cache_data (3600 # 1) get_sites_list w) as [w' r].
    simpl in Hdf. subst r.
    destruct (empty df); [unfold show, modify; simpl; eauto|].
    rewrite Hgt. unfold show, modify. simpl. eauto. }
  destruct Hstop as [msg ->]. simpl.
  split; [exact Hsent|]. split; [exact Hall|]. split; [|split; [exact Hdata|]].
  - eapply Forall_impl; [exact Hall|]. intros r Hr. simpl in Hr. rewrite Hr. discriminate.
  - exists msg. apply last_snoc.
Qed.

Lemma C9_no_request_witness :
  exists extra,
    sent (fst (main (P := Cases.online) Cases.backwards Demo.world0))
    = (sent Demo.world0 ++ extra)%list
    /\ Forall (fun r => url r = sites_url) extra
    /\ Forall (fun r => url r <> base_url) extra
    /\ aod_data (fst (main (P := Cases.online) Cases.backwards Demo.world0))
       = aod_data Demo.world0
    /\ exists msg,
         last (shown (fst (main (P := Cases.online) Cases.backwards Demo.world0)))
         = Some (st_error msg).
Proof.
  apply (C9_no_request_for_backwards_dates (P := Cases.online)
           Cases.backwards Demo.world0).
  reflexivity.
Defined.

(** With the dates in order the same run does reach the measurement
    endpoint. *)
Example main_forwards_ex :
  List.map url (sent (fst (main (P := Cases.online) Cases.forwards Demo.world0)))
  = [sites_url; base_url].
Proof. vm_compute. reflexivity. Qed.

Example main_backwards_ex :
  List.map url (sent (fst (main (P := Cases.online) Cases.backwards Demo.world0)))
  = [sites_url]
  /\ shown (fst (main (P := Cases.online) Cases.backwards Demo.world0))
     = [st_error "Start date must be before end date!"].
Proof. split; vm_compute; reflexivity. Qed.

(** ** Cleaning *)

Section Cleaning.

Lemma replace_row_lookup ds : forall (r : row) (j : nat),
  replace_row ds r !! j
  = (fun c => if match ds !! j with Some d => is_numeric d | None => false end
              then replace_cell c else c) <$> (r !! j).
Proof.
  induction ds as [|d ds IH]; intros [|c r] j; try reflexivity.
  - destruct j as [|j]; simpl; [reflexivity | destruct (r !! j); reflexivity].
  - destruct j as [|j]; simpl; [reflexivity | apply IH].
Qed.

Lemma is_sentinel_replace_cell c : is_sentinel (replace_cell c) = false.
Proof.
  unfold replace_cell. destruct (is_sentinel c) eqn:E; [reflexivity | exact E].
Qed.

Lemma clean_data_rows df :
  empty df = false ->
  rows (clean_data df)
  = List.filter
      (fun r => bool_decide (extract_aod_columns df = ∅)
                || negb (all_na (values (extract_aod_columns df)) (columns df) r))
      (List.map (replace_row (dtypes df)) (rows df)).
Proof.
  intros Hne. unfold clean_data. rewrite Hne.
  change (extract_aod_columns (mkDataFrame (columns df) (dtypes df) _))
    with (extract_aod_columns df).
  destruct (bool_decide (extract_aod_columns df = ∅)); simpl.
  - induction (List.map _ (rows df)) as [|r l IH]; simpl; congruence.
  - reflexivity.
Qed.

Lemma clean_data_empty df : empty df = true -> clean_data df = df.
Proof. intros He. unfold clean_data. rewrite He. reflexivity. Qed.

Lemma empty_true df : empty df = true -> columns df = [] \/ rows df = [].
Proof.
  unfold empty. destruct (columns df), (rows df); auto; discriminate.
Qed.

Lemma clean_data_row df (r' : row) :
  wf_frame df ->
  r' ∈ rows (clean_data df) ->
  exists r : row, r ∈ rows df /\ r' = replace_row (dtypes df) r.
Proof.
  intros [Hd _] Hin. destruct (empty df) eqn:He.
  - rewrite clean_data_empty in Hin by assumption. exists r'. split; [exact Hin|].
    destruct (empty_true df He) as [Hc|Hr].
    + rewrite Hc in Hd. destruct (dtypes df); [|discriminate].
      destruct r'; reflexivity.
    + rewrite Hr in Hin. inversion Hin.
  - rewrite clean_data_rows in Hin by assumption.
    apply list_elem_of_In, filter_In in Hin as [Hin _].
    apply in_map_iff in Hin as (r & <- & Hr).
    exists r. split; [apply list_elem_of_In, Hr | reflexivity].
Qed.

End Cleaning.

(** C4: in the cleaned table every row is a row of the input in which each
    cell of a numeric-typed column that holds -999 as an integer, -999 as a
    decimal, or the text marker has become the null, and every other cell
    is unchanged; no cell of a numeric-typed column holds a sentinel any
    more; the three forms are replaced alike. *)
Theorem C4_sentinels_become_null (df : DataFrame) :
  wf_frame df ->
  (forall r' : row, r' ∈ rows (clean_data df) ->
     exists r : row,
       r ∈ rows df
       /\ forall j : nat,
            r' !! j = (fun c => if numeric_at df j then replace_cell c else c) <$> (r !! j))
  /\ (forall (r' : row) (j : nat) (c : cell),
        r' ∈ rows (clean_data df) -> numeric_at df j = true -> r' !! j = Some c ->
        is_sentinel c = false)
  /\ replace_cell (VInt (-999)) = NaN
  /\ (forall q, (q == -999 # 1)%Q -> replace_cell (VFloat q) = NaN)
  /\ replace_cell (VStr "N/A") = NaN
  /\ (forall c, is_sentinel c = false -> replace_cell c = c).
Proof.
  intros Hwf.
  assert (Hrow : forall r' : row, r' ∈ rows (clean_data df) ->
            exists r : row,
              r ∈ rows df
              /\ forall j : nat,
                   r' !! j = (fun c => if numeric_at df j then replace_cell c else c)
                             <$> (r !! j)).
  { intros r' Hin. destruct (clean_data_row df r' Hwf Hin) as (r & Hr & ->).
    exists r. split; [exact Hr|]. intros j. apply replace_row_lookup. }
  split; [exact Hrow|]. split; [|split; [reflexivity|split; [|split; [reflexivity|]]]].
  - intros r' j c Hin Hnum Hc. destruct (Hrow r' Hin) as (r & _ & Hj).
    rewrite Hj, Hnum in Hc. destruct (r !! j) as [c0|]; simpl in Hc; [|discriminate].
    injection Hc as <-. apply is_sentinel_replace_cell.
  - intros q Hq. unfold replace_cell. simpl.
    rewrite (proj2 (Qeq_bool_iff q (-999 # 1)) Hq). reflexivity.
  - intros c Hc. unfold replace_cell. rewrite Hc. reflexivity.
Qed.

Lemma C4_sentinels_become_null_witness :
  rows (clean_data Cases.C4_frame)
  = [[VStr "N/A"; NaN; VFloat (3 # 10); VInt 4];
     [VStr "GSFC"; VFloat (1 # 10); NaN; NaN]]
  /\ (forall (r' : row) (j : nat) (c : cell),
        r' ∈ rows (clean_data Cases.C4_frame) ->
        numeric_at Cases.C4_frame j = true -> r' !! j = Some c ->
        is_sentinel c = false).
Proof.
  split; [vm_compute; reflexivity|].
  apply (C4_sentinels_become_null Cases.C4_frame).
  split; [reflexivity | repeat constructor].
Defined.

Section Dropping.

Lemma all_na_false subset cols : forall r : row,
  all_na subset cols r = false <->
  exists (j : nat) (col : string) (c : cell),
    cols !! j = Some col /\ r !! j = Some c /\ col ∈ subset /\ isna c = false.
Proof.
  induction cols as [|col cols IH]; intros r.
  - simpl. split; [discriminate|]. intros (j & col & c & Hj & _). discriminate.
  - destruct r as [|c r].
    + simpl. split; [discriminate|]. intros (j & col' & c & _ & Hj & _). discriminate.
    + simpl. rewrite andb_false_iff, IH. split.
      * intros [Hhd|(j & col' & c' & Hc & Hr & Hin & Hna)].
        -- destruct (bool_decide (col ∈ subset)) eqn:Hd; [|discriminate].
           apply bool_decide_eq_true in Hd. exists O, col, c. auto.
        -- exists (S j), col', c'. auto.
      * intros (j & col' & c' & Hc & Hr & Hin & Hna). destruct j as [|j].
        -- simpl in Hc, Hr. injection Hc as <-. injection Hr as <-.
           left. rewrite bool_decide_eq_true_2 by assumption. exact Hna.
        -- right. exists j, col', c'. auto.
Qed.

Lemma elem_of_values (m : gmap Z string) col :
  col ∈ values m <-> exists w, m !! w = Some col.
Proof.
  unfold values. rewrite list_elem_of_fmap. split.
  - intros ([w c] & -> & Hin). apply elem_of_map_to_list in Hin. eauto.
  - intros [w Hw]. exists (w, col). split; [reflexivity|].
    apply elem_of_map_to_list. exact Hw.
Qed.

Lemma kept_iff df (r : row) :
  bool_decide (extract_aod_columns df = ∅)
  || negb (all_na (values (extract_aod_columns df)) (columns df) r) = true
  <-> extract_aod_columns df = ∅ \/ has_aod_value df r.
Proof.
  rewrite orb_true_iff, bool_decide_eq_true, negb_true_iff, all_na_false.
  unfold has_aod_value. split; (intros [He|Hv]; [left; exact He | right]).
  - destruct Hv as (j & col & c & Hc & Hr & Hin & Hna).
    apply elem_of_values in Hin as [w Hw]. exists w, col, j, c. auto.
  - destruct Hv as (w & col & j & c & Hw & Hc & Hr & Hna).
    exists j, col, c. repeat split; try assumption.
    apply elem_of_values. eauto.
Qed.

Lemma replace_row_nil (r : row) : replace_row [] r = r.
Proof. destruct r; reflexivity. Qed.

Lemma filter_all {A} (p : A -> bool) l :
  (forall x, p x = true) -> List.filter p l = l.
Proof.
  intros Hp. induction l as [|a l IH]; simpl; [reflexivity|].
  rewrite Hp, IH. reflexivity.
Qed.

End Dropping.

(** C10: the cleaned table holds, in their order, the rows of the input
    after sentinel replacement that have a non-null cell under some
    resolved AOD column; the rows whose resolved AOD cells are all null are
    the ones removed; when no AOD column is resolved, every row stays. *)
Theorem C10_rows_without_aod_are_dropped (df : DataFrame) :
  wf_frame df ->
  let cleaned := List.map (replace_row (dtypes df)) (rows df) in
  (exists keep : row -> bool,
     rows (clean_data df) = List.filter keep cleaned
     /\ forall r, keep r = true <-> extract_aod_columns df = ∅ \/ has_aod_value df r)
  /\ (forall r : row,
        r ∈ rows (clean_data df) <->
        r ∈ cleaned /\ (extract_aod_columns df = ∅ \/ has_aod_value df r))
  /\ (extract_aod_columns df = ∅ -> rows (clean_data df) = cleaned).
Proof.
  intros [Hd _] cleaned.
  set (keep := fun r : row =>
         bool_decide (extract_aod_columns df = ∅)
         || negb (all_na (values (extract_aod_columns df)) (columns df) r)).
  assert (Hrows : rows (clean_data df) = List.filter keep cleaned).
  { destruct (empty df) eqn:He; [|apply clean_data_rows, He].
    rewrite clean_data_empty by assumption.
    destruct (empty_true df He) as [Hc|Hr].
    - assert (Hk : forall r, keep r = true).
      { intros r. unfold keep, extract_aod_columns. rewrite Hc. reflexivity. }
      rewrite (filter_all keep cleaned Hk). unfold cleaned.
      rewrite Hc in Hd. destruct (dtypes df); [|discriminate].
      induction (rows df) as [|r l IH]; [reflexivity|].
      cbn [List.map]. rewrite replace_row_nil, <- IH. reflexivity.
    - unfold cleaned. rewrite Hr. reflexivity. }
  split; [|split].
  - exists keep. split; [exact Hrows|]. intros r. apply kept_iff.
  - intros r. rewrite Hrows, list_elem_of_In, filter_In, <- list_elem_of_In.
    unfold keep. rewrite kept_iff. reflexivity.
  - intros Hnone. rewrite Hrows. apply filter_all. intros r.
    apply kept_iff. left. exact Hnone.
Qed.

Lemma C10_rows_without_aod_witness :
  rows (clean_data Cases.C4_frame)
  = [[VStr "N/A"; NaN; VFloat (3 # 10); VInt 4];
     [VStr "GSFC"; VFloat (1 # 10); NaN; NaN]]
  /\ (forall r : row,
        r ∈ rows (clean_data Cases.C4_frame) <->
        r ∈ List.map (replace_row (dtypes Cases.C4_frame)) (rows Cases.C4_frame)
        /\ (extract_aod_columns Cases.C4_frame = ∅ \/ has_aod_value Cases.C4_frame r)).
Proof.
  split; [vm_compute; reflexivity|].
  apply (C10_rows_without_aod_are_dropped Cases.C4_frame).
  split; [reflexivity | repeat constructor].
Defined.

(** ** Statistics *)

Section Reductions.

Local Open Scope Q_scope.

Lemma insert_perm x l : Permutation (x :: l) (Series.insert x l).
Proof.
  induction l as [|y l IH]; simpl; [reflexivity|].
  destruct (Qle_bool x y); [reflexivity|].
  rewrite perm_swap. apply perm_skip, IH.
Qed.

Lemma Qle_bool_false x y : Qle_bool x y = false -> y <= x.
Proof.
  intros Hf. destruct (Qlt_le_dec y x) as [Hlt|Hle].
  - apply Qlt_le_weak, Hlt.
  - apply Qle_bool_iff in Hle. congruence.
Qed.

Lemma insert_sorted x l : Sorted Qle l -> Sorted Qle (Series.insert x l).
Proof.
  induction l as [|y l IH]; intros Hs; simpl.
  - repeat constructor.
  - destruct (Qle_bool x y) eqn:E.
    + constructor; [exact Hs|]. constructor. apply Qle_bool_iff, E.
    + inversion Hs as [|? ? Hs' Hhd]; subst.
      constructor; [apply IH, Hs'|].
      destruct l as [|z l]; simpl.
      * constructor. apply Qle_bool_false, E.
      * destruct (Qle_bool x z).
        -- constructor. apply Qle_bool_false, E.
        -- inversion Hhd; subst. constructor. assumption.
Qed.

Lemma sort_perm l : Permutation l (Series.sort l).
Proof.
  induction l as [|x l IH]; simpl; [reflexivity|].
  rewrite <- insert_perm. apply perm_skip, IH.
Qed.

Lemma sort_sorted l : Sorted Qle (Series.sort l).
Proof.
  induction l as [|x l IH]; simpl; [constructor | apply insert_sorted, IH].
Qed.

Lemma qmin_cases a b :
  (Series.qmin a b = a \/ Series.qmin a b = b)
  /\ Series.qmin a b <= a /\ Series.qmin a b <= b.
Proof.
  unfold Series.qmin. destruct (Qle_bool a b) eqn:E.
  - split; [left; reflexivity|]. split; [apply Qle_refl | apply Qle_bool_iff, E].
  - split; [right; reflexivity|]. split; [apply Qle_bool_false, E | apply Qle_refl].
Qed.

Lemma qmax_cases a b :
  (Series.qmax a b = a \/ Series.qmax a b = b)
  /\ a <= Series.qmax a b /\ b <= Series.qmax a b.
Proof.
  unfold Series.qmax. destruct (Qle_bool a b) eqn:E.
  - split; [right; reflexivity|]. split; [apply Qle_bool_iff, E | apply Qle_refl].
  - split; [left; reflexivity|]. split; [apply Qle_refl | apply Qle_bool_false, E].
Qed.

Lemma fold_qmin l : forall x,
  (fold_left Series.qmin l x = x \/ In (fold_left Series.qmin l x) l)
  /\ fold_left Series.qmin l x <= x
  /\ Forall (fun y => fold_left Series.qmin l x <= y) l.
Proof.
  induction l as [|a l IH]; intros x; simpl.
  - split; [left; reflexivity|]. split; [apply Qle_refl | constructor].
  - destruct (IH (Series.qmin x a)) as (Hin & Hle & Hall).
    destruct (qmin_cases x a) as (Hc & Hx & Ha).
    split; [|split].
    + destruct Hin as [Hin|Hin]; [|right; right; exact Hin].
      rewrite Hin. destruct Hc as [->| ->]; [left | right; left]; reflexivity.
    + eapply Qle_trans; [exact Hle | exact Hx].
    + constructor; [|exact Hall]. eapply Qle_trans; [exact Hle | exact Ha].
Qed.

Lemma fold_qmax l : forall x,
  (fold_left Series.qmax l x = x \/ In (fold_left Series.qmax l x) l)
  /\ x <= fold_left Series.qmax l x
  /\ Forall (fun y => y <= fold_left Series.qmax l x) l.
Proof.
  induction l as [|a l IH]; intros x; simpl.
  - split; [left; reflexivity|]. split; [apply Qle_refl | constructor].
  - destruct (IH (Series.qmax x a)) as (Hin & Hle & Hall).
    destruct (qmax_cases x a) as (Hc & Hx & Ha).
    split; [|split].
    + destruct Hin as [Hin|Hin]; [|right; right; exact Hin].
      rewrite Hin. destruct Hc as [->| ->]; [left | right; left]; reflexivity.
    + eapply Qle_trans; [exact Hx | exact Hle].
    + constructor; [|exact Hall]. eapply Qle_trans; [exact Ha | exact Hle].
Qed.

Lemma min_least l :
  l <> [] -> In (Series.min l) l /\ Forall (fun y => Series.min l <= y) l.
Proof.
  destruct l as [|x l]; [congruence|]. intros _. simpl.
  destruct (fold_qmin l x) as (Hin & Hle & Hall). split.
  - destruct Hin as [->|Hin]; [left; reflexivity | right; exact Hin].
  - constructor; assumption.
Qed.

Lemma max_greatest l :
  l <> [] -> In (Series.max l) l /\ Forall (fun y => y <= Series.max l) l.
Proof.
  destruct l as [|x l]; [congruence|]. intros _. simpl.
  destruct (fold_qmax l x) as (Hin & Hle & Hall). split.
  - destruct Hin as [->|Hin]; [left; reflexivity | right; exact Hin].
  - constructor; assumption.
Qed.

Lemma of_nat_nonzero n : ~ Series.of_nat (S n) == 0.
Proof.
  unfold Series.of_nat, Qeq, inject_Z. simpl. lia.
Qed.

Lemma mean_sum l : l <> [] -> Series.mean l * Series.of_nat (length l) == Series.sum l.
Proof.
  destruct l as [|x l]; [congruence|]. intros _. unfold Series.mean.
  simpl length. rewrite Qmult_comm. apply Qmult_div_r, of_nat_nonzero.
Qed.

Lemma var_squares l :
  match Series.var l with
  | None => (length l <= 1)%nat
  | Some v =>
      (2 <= length l)%nat
      /\ v * Series.of_nat (length l - 1)%nat
         == Described.squares (Series.mean l) l
  end.
Proof.
  unfold Series.var. destruct (length l) as [|[|n]] eqn:E; [lia | lia |].
  split; [lia|]. replace (S (S n) - 1)%nat with (S n) by lia.
  unfold Described.squares. rewrite Qmult_comm. apply Qmult_div_r, of_nat_nonzero.
Qed.

(** The reductions of the code meet the description. *)
Lemma reductions_describe xs :
  xs <> [] ->
  Described.describes xs
    {| count := length xs;
       mean := Series.mean xs;
       median := Series.median xs;
       std := option_map Sqrt (Series.var xs);
       min := Series.min xs;
       max := Series.max xs;
       q25 := Series.quantile (1 # 4) xs;
       q75 := Series.quantile (3 # 4) xs |}.
Proof.
  intros Hne. unfold Described.describes. simpl.
  split; [reflexivity|]. split; [apply mean_sum, Hne|].
  split; [|split; [apply min_least, Hne | split; [apply max_greatest, Hne|]]].
  - exists (Series.sort xs). split; [apply sort_perm|]. split; [apply sort_sorted|].
    unfold Described.middle. rewrite <- (Permutation_length (sort_perm xs)).
    repeat split; reflexivity.
  - pose proof (var_squares xs) as Hv. destruct (Series.var xs) as [v|]; simpl.
    + exact Hv.
    + destruct xs as [|x [|y xs]]; [congruence | reflexivity | simpl in Hv; lia].
Qed.

End Reductions.

Section Statistics.

Lemma resolved_is_column df w col :
  extract_aod_columns df !! w = Some col -> col ∈ columns df.
Proof.
  unfold extract_aod_columns. rewrite extract_from_lookup, lookup_empty.
  destruct (last _) as [c|] eqn:El; [|discriminate]. intros [= ->].
  apply last_Some_elem_of in El.
  apply list_elem_of_In, filter_In in El as [Hin _].
  apply list_elem_of_In, Hin.
Qed.

Lemma getitem_resolved df w col :
  extract_aod_columns df !! w = Some col -> exists s, getitem df col = inr s.
Proof.
  intros Hw. apply resolved_is_column in Hw. unfold getitem.
  destruct (get_loc col (columns df)) eqn:E; [eauto|].
  apply get_loc_None in E. contradiction.
Qed.

Lemma dropna_not_na s : Forall (fun c => isna c = false) (dropna s).
Proof.
  unfold dropna. apply Forall_forall. intros c Hin.
  apply list_elem_of_In, filter_In in Hin as [_ Hc].
  apply negb_true_iff, Hc.
Qed.

End Statistics.

(** C5: [calculate_statistics] returns nothing (the empty dict) exactly when
    the wavelength is bound to no column or its column has no non-null
    value. Otherwise, the non-null cells of the column being numbers [xs]
    (the nulls are dropped, not counted as zero), it returns their count,
    their arithmetic mean, the median of their sorted order (the average of
    the two middle values for an even count), the square root of the sum of
    squared deviations over [count - 1] (undefined for a single value),
    their least and greatest value, and the 25th and 75th percentiles by
    linear interpolation between order statistics. On [0.1, 0.2, null, 0.4]:
    count 3, mean 7/30 = 0.2333..., median 0.2, min 0.1, max 0.4. *)
Theorem C5_statistics :
  (forall df w,
     calculate_statistics df w = inr None <->
     extract_aod_columns df !! w = None
     \/ exists col s,
          extract_aod_columns df !! w = Some col
          /\ getitem df col = inr s
          /\ dropna s = [])
  /\ (forall df w col s xs,
        extract_aod_columns df !! w = Some col ->
        getitem df col = inr s ->
        dropna s <> [] ->
        to_numerics (dropna s) = inr xs ->
        exists st,
          calculate_statistics df w = inr (Some st)
          /\ length xs = length (dropna s)
          /\ Described.describes xs st)
  /\ (exists st,
        calculate_statistics Cases.C5_frame 440 = inr (Some st)
        /\ count st = 3%nat
        /\ (mean st == 7 # 30)%Q
        /\ (2333 # 10000 < mean st)%Q /\ (mean st < 2334 # 10000)%Q
        /\ (median st == 2 # 10)%Q
        /\ (min st == 1 # 10)%Q
        /\ (max st == 4 # 10)%Q).
Proof.
  split; [|split].
  - intros df w. unfold calculate_statistics.
    destruct (extract_aod_columns df !! w) as [col|] eqn:Hw.
    + destruct (getitem_resolved df w col Hw) as [s Hs]. rewrite Hs.
      destruct (dropna s) as [|c data] eqn:Hd.
      * split; [|reflexivity]. intros _. right. exists col, s. auto.
      * split.
        -- destruct (to_numerics (c :: data)); discriminate.
        -- intros [Hn|(col' & s' & Hc & Hs' & Hd')]; [discriminate|].
           injection Hc as <-. rewrite Hs in Hs'. injection Hs' as <-.
           rewrite Hd in Hd'. discriminate.
    + split; [auto | reflexivity].
  - intros df w col s xs Hw Hs Hne Hnum. unfold calculate_statistics.
    rewrite Hw, Hs. destruct (dropna s) as [|c data] eqn:Hd; [congruence|].
    rewrite Hnum. eexists. split; [reflexivity|].
    assert (Hlen : length xs = length (c :: data)).
    { clear - Hnum. revert xs Hnum. generalize (c :: data) as l.
      induction l as [|a l IH]; intros xs; simpl.
      - intros [= <-]. reflexivity.
      - destruct (to_numeric a); [discriminate|].
        destruct (to_numerics l) as [|qs]; [discriminate|].
        intros [= <-]. simpl. rewrite (IH qs eq_refl). reflexivity. }
    split; [exact Hlen|]. apply reductions_describe.
    destruct xs; [discriminate | congruence].
  - eexists. split; [vm_compute; reflexivity|]. simpl.
    repeat split; vm_compute; congruence.
Qed.

Lemma C5_statistics_witness :
  exists st,
    calculate_statistics Cases.C5_frame 440 = inr (Some st)
    /\ length [1 # 10; 2 # 10; 4 # 10]%Q
       = length (dropna [VFloat (1 # 10); VFloat (2 # 10); NaN; VFloat (4 # 10)])
    /\ Described.describes [1 # 10; 2 # 10; 4 # 10]%Q st.
Proof.
  apply (proj1 (proj2 C5_statistics) Cases.C5_frame 440 "AOD_440nm"
           [VFloat (1 # 10); VFloat (2 # 10); NaN; VFloat (4 # 10)]).
  - vm_compute. reflexivity.
  - reflexivity.
  - discriminate.
  - reflexivity.
Defined.

(** * Further properties of the processor *)

Section ResolverFacts.

Lemma last_filter_true {A} (p : A -> bool) (l : list A) (x : A) :
  last (List.filter p l) = Some x -> x ∈ l /\ p x = true.
Proof.
  intros Hl. apply last_Some_elem_of in Hl.
  apply list_elem_of_In, filter_In in Hl as [Hin Hp].
  split; [apply list_elem_of_In, Hin | exact Hp].
Qed.

Lemma resolved_is_filed df w col :
  extract_aod_columns df !! w = Some col ->
  col ∈ columns df /\ filed_under w col = true.
Proof.
  unfold extract_aod_columns. rewrite extract_from_lookup, lookup_empty.
  destruct (last _) as [c|] eqn:El; [|discriminate]. intros [= ->].
  apply last_filter_true in El. exact El.
Qed.

Lemma extract_aod_columns_columns df df' :
  columns df' = columns df -> extract_aod_columns df' = extract_aod_columns df.
Proof. unfold extract_aod_columns. intros ->. reflexivity. Qed.

End ResolverFacts.

(** X1: every entry of the column map is sound: its key is one of the seven
    wavelengths, its value is a column of the table, and the name of that
    column contains the numeral of the wavelength and the AOD marker. *)
Theorem X1_resolved_columns_match (df : DataFrame) (w : Z) (col : string) :
  extract_aod_columns df !! w = Some col ->
  In w aod_wavelengths
  /\ col ∈ columns df
  /\ Str.contains (Str.of_int w) col = true
  /\ Str.contains "AOD" (Str.upper col) = true.
Proof.
  intros Hw. apply resolved_is_filed in Hw as [Hin Hf].
  apply filed_under_iff in Hf as (before & after & Hlist & Hm & _).
  apply andb_true_iff in Hm as [Hnum Haod].
  split; [|auto]. rewrite Hlist. apply in_or_app. right. left. reflexivity.
Qed.

Lemma X1_resolved_columns_match_witness :
  In 500 aod_wavelengths
  /\ "N[AOD_500nm]" ∈ columns Cases.C4_frame
  /\ Str.contains (Str.of_int 500) "N[AOD_500nm]" = true
  /\ Str.contains "AOD" (Str.upper "N[AOD_500nm]") = true.
Proof.
  apply (X1_resolved_columns_match Cases.C4_frame 500 "N[AOD_500nm]").
  vm_compute. reflexivity.
Defined.

(** X2: no column is bound to two wavelengths: the column map is injective,
    also for a name such as "AOD_340_380nm" that contains two numerals. *)
Theorem X2_column_map_injective (df : DataFrame) (w1 w2 : Z) (col : string) :
  extract_aod_columns df !! w1 = Some col ->
  extract_aod_columns df !! w2 = Some col ->
  w1 = w2.
Proof.
  intros H1 H2.
  apply resolved_is_filed in H1 as [_ H1]. apply resolved_is_filed in H2 as [_ H2].
  unfold filed_under in H1, H2. destruct (wavelength_of col) as [w|]; [|discriminate].
  apply Z.eqb_eq in H1, H2. congruence.
Qed.

Lemma X2_column_map_injective_witness :
  let df := mkDataFrame ["AOD_340_380nm"; "AOD_440nm"] [float64; float64] [] in
  extract_aod_columns df !! 340 = Some "AOD_340_380nm"
  /\ extract_aod_columns df !! 380 = None
  /\ 340 = 340.
Proof.
  intros df. split; [vm_compute; reflexivity|]. split; [vm_compute; reflexivity|].
  apply (X2_column_map_injective df 340 340 "AOD_340_380nm"); vm_compute; reflexivity.
Defined.

Section CleaningFacts.

Lemma replace_cell_idempotent c : replace_cell (replace_cell c) = replace_cell c.
Proof.
  unfold replace_cell at 2 3. destruct (is_sentinel c) eqn:E; [reflexivity|].
  unfold replace_cell. rewrite E. reflexivity.
Qed.

Lemma replace_row_idempotent ds : forall r : row,
  replace_row ds (replace_row ds r) = replace_row ds r.
Proof.
  induction ds as [|d ds IH]; intros [|c r]; simpl; try reflexivity.
  rewrite IH. destruct (is_numeric d); [rewrite replace_cell_idempotent|]; reflexivity.
Qed.


Lemma frame_eq (a b : DataFrame) :
  columns a = columns b -> dtypes a = dtypes b -> rows a = rows b -> a = b.
Proof. destruct a, b; simpl; intros -> -> ->; reflexivity. Qed.

Lemma clean_data_columns df :
  columns (clean_data df) = columns df /\ dtypes (clean_data df) = dtypes df.
Proof.
  unfold clean_data. destruct (empty df); [auto|].
  destruct (bool_decide _); auto.
Qed.

Lemma map_fixed {A} (f : A -> A) (l : list A) :
  Forall (fun x => f x = x) l -> List.map f l = l.
Proof. induction 1 as [|x l Hx _ IH]; simpl; congruence. Qed.

Lemma filter_filter {A} (p : A -> bool) (l : list A) :
  List.filter p (List.filter p l) = List.filter p l.
Proof.
  induction l as [|x l IH]; simpl; [reflexivity|].
  destruct (p x) eqn:E; simpl; [rewrite E, IH|]; auto.
Qed.

Lemma filter_length_le {A} (p : A -> bool) (l : list A) :
  (length (List.filter p l) <= length l)%nat.
Proof.
  induction l as [|x l IH]; simpl; [lia|]. destruct (p x); simpl; lia.
Qed.


End CleaningFacts.

(** X3: cleaning is idempotent: cleaning a cleaned table changes nothing. *)
Theorem X3_clean_data_idempotent (df : DataFrame) :
  clean_data (clean_data df) = clean_data df.
Proof.
  destruct (empty df) eqn:He.
  { rewrite (clean_data_empty df He). apply clean_data_empty, He. }
  destruct (empty (clean_data df)) eqn:He'; [apply clean_data_empty, He'|].
  destruct (clean_data_columns df) as [Hc Hd].
  destruct (clean_data_columns (clean_data df)) as [Hc' Hd'].
  apply frame_eq; [exact Hc' | exact Hd' |].
  rewrite (clean_data_rows (clean_data df) He').
  rewrite (extract_aod_columns_columns df (clean_data df) Hc), Hc, Hd.
  rewrite (clean_data_rows df He).
  set (keep := fun r : row => _ || _).
  rewrite map_fixed; [apply filter_filter|].
  apply Forall_forall. intros r Hin.
  apply list_elem_of_In, filter_In in Hin as [Hin _].
  apply in_map_iff in Hin as (r0 & <- & _). apply replace_row_idempotent.
Qed.



Section CleanThenMeasure.

Lemma cell_at_lookup (j : nat) (r : row) : cell_at j r = default NaN (r !! j).
Proof. unfold cell_at. apply nth_lookup. Qed.

Lemma cell_at_replace_row ds (j : nat) (r : row) :
  cell_at j (replace_row ds r)
  = if match ds !! j with Some d => is_numeric d | None => false end
    then replace_cell (cell_at j r) else cell_at j r.
Proof.
  rewrite !cell_at_lookup, replace_row_lookup.
  destruct (r !! j); simpl; [reflexivity|].
  destruct (match ds !! j with Some d => is_numeric d | None => false end); reflexivity.
Qed.

Lemma get_loc_lookup name cols j :
  get_loc name cols = Some j -> cols !! j = Some name.
Proof.
  revert j. induction cols as [|c cols IH]; intros j; simpl; [discriminate|].
  destruct (String.eqb_spec c name) as [->|_].
  - intros [= <-]. reflexivity.
  - destruct (get_loc name cols) as [k|]; simpl; [|discriminate].
    intros [= <-]. simpl. apply IH. reflexivity.
Qed.

Lemma all_na_cell subset cols (r : row) j col :
  all_na subset cols r = true ->
  cols !! j = Some col -> col ∈ subset -> isna (cell_at j r) = true.
Proof.
  intros Hall Hc Hin. rewrite cell_at_lookup.
  destruct (r !! j) as [c|] eqn:Hr; [|reflexivity]. simpl.
  destruct (isna c) eqn:Hna; [reflexivity|].
  assert (Hf : all_na subset cols r = false).
  { apply all_na_false. exists j, col, c. auto. }
  congruence.
Qed.

Lemma dropna_filter_rows (keep : row -> bool) (j : nat) (l : list row) :
  Forall (fun r => keep r = false -> isna (cell_at j r) = true) l ->
  dropna (List.map (cell_at j) (List.filter keep l)) = dropna (List.map (cell_at j) l).
Proof.
  unfold dropna. induction 1 as [|r l Hr _ IH]; [reflexivity|].
  cbn [List.map List.filter]. destruct (keep r) eqn:Hk.
  - cbn [List.map List.filter]. rewrite IH. reflexivity.
  - rewrite (Hr eq_refl). cbn [negb]. exact IH.
Qed.

Lemma dropna_replaced (s : list cell) :
  dropna (List.map replace_cell s)
  = List.filter (fun c => negb (isna c) && negb (is_sentinel c)) s.
Proof.
  unfold dropna. induction s as [|c s IH]; [reflexivity|].
  cbn [List.map List.filter]. rewrite IH. unfold replace_cell.
  destruct (is_sentinel c); [rewrite andb_false_r; reflexivity|].
  rewrite andb_true_r. reflexivity.
Qed.

End CleanThenMeasure.

(** X5: cleaning and measuring compose: for a wavelength bound to a column
    of numeric dtype, the non-null values of that column in the cleaned
    table, over which the statistics are computed, are the cells of the
    column in the input that are neither null nor a sentinel, in their
    order; the cleaned table binds the wavelength to the same column. *)
Theorem X5_statistics_see_no_sentinel (df : DataFrame) (w : Z) (col : string) (j : nat) :
  extract_aod_columns df !! w = Some col ->
  get_loc col (columns df) = Some j ->
  numeric_at df j = true ->
  extract_aod_columns (clean_data df) !! w = Some col
  /\ exists s,
       getitem (clean_data df) col = inr s
       /\ dropna s
          = List.filter (fun c => negb (isna c) && negb (is_sentinel c))
              (List.map (cell_at j) (rows df)).
Proof.
  intros Hw Hloc Hnum. destruct (clean_data_columns df) as [Hc _].
  split; [rewrite (extract_aod_columns_columns df _ Hc); exact Hw|].
  unfold getitem. rewrite Hc, Hloc. eexists. split; [reflexivity|].
  destruct (empty df) eqn:He.
  - rewrite clean_data_empty by assumption.
    destruct (empty_true df He) as [Hcols|Hrows].
    + rewrite Hcols in Hloc. discriminate.
    + rewrite Hrows. reflexivity.
  - rewrite clean_data_rows by assumption.
    rewrite dropna_filter_rows.
    + rewrite List.map_map.
      rewrite (List.map_ext _ (fun r => replace_cell (cell_at j r))).
      * rewrite <- (List.map_map (cell_at j) replace_cell). apply dropna_replaced.
      * intros r. rewrite cell_at_replace_row. unfold numeric_at in Hnum.
        rewrite Hnum. reflexivity.
    + apply Forall_forall. intros r _ Hk.
      apply orb_false_iff in Hk as [_ Hk]. apply negb_false_iff in Hk.
      eapply all_na_cell; [exact Hk | apply get_loc_lookup, Hloc |].
      apply elem_of_values. eauto.
Qed.

Lemma X5_statistics_see_no_sentinel_witness :
  extract_aod_columns (clean_data Cases.C4_frame) !! 440 = Some "AOD_440nm"
  /\ exists s,
       getitem (clean_data Cases.C4_frame) "AOD_440nm" = inr s
       /\ dropna s
          = List.filter (fun c => negb (isna c) && negb (is_sentinel c))
              (List.map (cell_at 1) (rows Cases.C4_frame)).
Proof.
  apply (X5_statistics_see_no_sentinel Cases.C4_frame 440 "AOD_440nm" 1);
    vm_compute; reflexivity.
Defined.

(** ** Order of the statistics *)

Section Quantiles.

Local Open Scope Q_scope.


Lemma of_nat_le a b : (a <= b)%nat -> Series.of_nat a <= Series.of_nat b.
Proof. intros Hab. unfold Series.of_nat. rewrite <- Zle_Qle. lia. Qed.

Lemma of_nat_pos n : 0 < Series.of_nat (S n).
Proof. unfold Series.of_nat. rewrite <- (Zlt_Qlt 0). lia. Qed.









End Quantiles.

Section Interpolation.

Local Open Scope Q_scope.



Variable s : list Q.
Variable k : nat.
Hypothesis Hsorted : StronglySorted Qle s.
Hypothesis Hlen : length s = S k.




End Interpolation.

Section StatisticsOrder.

Local Open Scope Q_scope.









End StatisticsOrder.

Section StatisticsShape.

Lemma to_numerics_length s : forall xs,
  to_numerics s = inr xs -> length xs = length s.
Proof.
  induction s as [|c s IH]; intros xs; simpl.
  - intros [= <-]. reflexivity.
  - destruct (to_numeric c); [discriminate|].
    destruct (to_numerics s) as [|qs]; [discriminate|].
    intros [= <-]. simpl. rewrite (IH qs eq_refl). reflexivity.
Qed.

Lemma calculate_statistics_inv df w st :
  calculate_statistics df w = inr (Some st) ->
  exists col s xs,
    extract_aod_columns df !! w = Some col
    /\ getitem df col = inr s
    /\ to_numerics (dropna s) = inr xs
    /\ xs <> []
    /\ st = {| count := length xs;
               mean := Series.mean xs;
               median := Series.median xs;
               std := option_map Sqrt (Series.var xs);
               min := Series.min xs;
               max := Series.max xs;
               q25 := Series.quantile (1 # 4) xs;
               q75 := Series.quantile (3 # 4) xs |}.
Proof.
  unfold calculate_statistics.
  destruct (extract_aod_columns df !! w) as [col|] eqn:Hw; [|discriminate].
  destruct (getitem df col) as [e|s] eqn:Hs; [discriminate|].
  destruct (dropna s) as [|c data] eqn:Hd; [discriminate|].
  destruct (to_numerics (c :: data)) as [e|xs] eqn:Hn; [discriminate|].
  intros [= <-]. exists col, s, xs. rewrite Hd.
  split; [reflexivity|]. split; [exact Hs|]. split; [exact Hn|].
  split; [|reflexivity].
  apply to_numerics_length in Hn.
  destruct xs as [|q xs]; [simpl in Hn; discriminate Hn | intros E; discriminate E].
Qed.

Lemma getitem_length df col s : getitem df col = inr s -> length s = length (rows df).
Proof.
  unfold getitem. destruct (get_loc col (columns df)); [|discriminate].
  intros [= <-]. apply length_map.
Qed.

End StatisticsShape.



(** X7: a column with a single non-null value [x] gives count 1, mean,
    median, min, max and both quartiles equal to [x], and no standard
    deviation (NaN). *)
Theorem X7_single_value (df : DataFrame) (w : Z) (col : string)
    (s : list cell) (c : cell) (x : Q) :
  extract_aod_columns df !! w = Some col ->
  getitem df col = inr s ->
  dropna s = [c] ->
  to_numeric c = inr x ->
  exists st,
    calculate_statistics df w = inr (Some st)
    /\ count st = 1%nat
    /\ (mean st == x)%Q /\ (median st == x)%Q
    /\ min st = x /\ max st = x
    /\ (q25 st == x)%Q /\ (q75 st == x)%Q
    /\ std st = None.
Proof.
  intros Hw Hs Hd Hx. unfold calculate_statistics. rewrite Hw, Hs, Hd.
  simpl. rewrite Hx. eexists. split; [reflexivity|]. simpl.
  split; [reflexivity|].
  unfold Series.mean, Series.median, Series.quantile, Series.item, Series.of_nat.
  simpl.
  repeat split; try reflexivity; try field;
    match goal with
    | |- (_ + _ * ?f == _)%Q =>
        assert (E : (f == 0)%Q) by reflexivity; rewrite E; ring
    end.
Qed.

Lemma X7_single_value_witness :
  exists st,
    calculate_statistics Samples.lonely 500 = inr (Some st)
    /\ count st = 1%nat
    /\ (mean st == 3 # 10)%Q /\ (median st == 3 # 10)%Q
    /\ min st = (3 # 10)%Q /\ max st = (3 # 10)%Q
    /\ (q25 st == 3 # 10)%Q /\ (q75 st == 3 # 10)%Q
    /\ std st = None.
Proof.
  apply (X7_single_value Samples.lonely 500 "AOD_500nm"
           [NaN; VFloat (3 # 10); NaN] (VFloat (3 # 10)) (3 # 10)%Q);
    vm_compute; reflexivity.
Defined.

(** * Further properties of the client *)

Section DataStartFacts.

Lemma find_header_range lines : forall i,
  find_header lines i = O
  \/ ((i <= find_header lines i)%nat /\ (find_header lines i < i + length lines)%nat).
Proof.
  induction lines as [|l lines IH]; intros i; simpl; [left; reflexivity|].
  destruct (is_header l).
  - right. lia.
  - destruct (IH (S i)) as [->|Hr]; [left; reflexivity | right; lia].
Qed.

Lemma split_not_nil sep str : Str.split sep str <> [].
Proof.
  destruct str as [|c str]; simpl; [discriminate|].
  destruct (Ascii.eqb c sep); [discriminate|].
  destruct (Str.split sep str); discriminate.
Qed.

Lemma skipn_not_nil {A} (l : list A) n : (n < length l)%nat -> skipn n l <> [].
Proof.
  intros Hn Hnil. apply (f_equal (@length A)) in Hnil.
  rewrite length_skipn in Hnil. simpl in Hnil. lia.
Qed.

End DataStartFacts.

(** X8: the line at which the table is taken to begin always exists: for
    every response, [data_start] is below the number of lines, so the text
    handed to the CSV reader holds at least the last line of the response. *)
Theorem X8_data_start_in_range :
  (forall lines, lines <> [] ->
     (data_start lines < length lines)%nat
     /\ skipn (data_start lines) lines <> [])
  /\ (forall body,
        (data_start (lines_of body) < length (lines_of body))%nat
        /\ skipn (data_start (lines_of body)) (lines_of body) <> []).
Proof.
  assert (Hgen : forall lines, lines <> [] ->
            (data_start lines < length lines)%nat
            /\ skipn (data_start lines) lines <> []).
  { intros lines Hne.
    assert (Hlt : (data_start lines < length lines)%nat).
    { assert (Hlen : (1 <= length lines)%nat)
        by (destruct lines; [congruence | simpl; lia]).
      unfold data_start. destruct (find_header_range lines 0) as [->|[_ Hr]].
      - rewrite Nat.eqb_refl. lia.
      - destruct (find_header lines 0 =? 0)%nat; lia. }
    split; [exact Hlt | apply skipn_not_nil, Hlt]. }
  split; [exact Hgen|]. intros body. apply Hgen, split_not_nil.
Qed.

Lemma X8_data_start_in_range_witness :
  (data_start ["a"; "b"; "c"] < 3)%nat /\ skipn (data_start ["a"; "b"; "c"]) ["a"; "b"; "c"] <> [].
Proof.
  apply (proj1 X8_data_start_in_range ["a"; "b"; "c"]). discriminate.
Defined.

(** X9: a header on the very first line of the response is not used: the
    loop leaves [data_start] at 0, which the code takes for "no header
    found", so the table is taken to begin at line
    [min(6, number of lines - 1)] and, as soon as the response has a second
    line, the header line itself is left out of the text that is parsed. *)
Theorem X9_header_on_first_line_is_skipped (line : string) (below : list string) :
  is_header line = true ->
  data_start (line :: below) = Nat.min 6 (length below)
  /\ (below <> [] ->
      (1 <= data_start (line :: below))%nat
      /\ skipn (data_start (line :: below)) (line :: below)
         = skipn (Nat.min 6 (length below) - 1) below).
Proof.
  intros Hline.
  assert (E : data_start (line :: below) = Nat.min 6 (length below)).
  { unfold data_start. simpl. rewrite Hline. simpl. rewrite Nat.sub_0_r. reflexivity. }
  split; [exact E|]. intros Hne. rewrite E.
  assert (Hlen : (1 <= length below)%nat)
    by (destruct below; [congruence | simpl; lia]).
  split; [lia|].
  destruct (Nat.min 6 (length below)) as [|n] eqn:Hm; [lia|].
  simpl. rewrite Nat.sub_0_r. reflexivity.
Qed.

Lemma X9_header_on_first_line_witness :
  let line := "Date(dd:mm:yyyy),Time(hh:mm:ss),AOD_440nm" in
  let below := ["01:01:2020,12:00:00,0.1"; "02:01:2020,12:00:00,0.2"] in
  data_start (line :: below) = 2%nat
  /\ data_text (line :: below) = "02:01:2020,12:00:00,0.2".
Proof.
  intros line below.
  destruct (X9_header_on_first_line_is_skipped line below eq_refl) as [E _].
  split; [exact E | reflexivity].
Defined.

Section Outcomes.

Context {P : Platform}.

Lemma _respect_rate_limit_spacing delay w :
  let w' := fst (_respect_rate_limit delay w) in
  last_request_time w' = clock w'
  /\ (last_request_time w + delay <= last_request_time w')%Q
  /\ (clock w <= clock w')%Q.
Proof.
  unfold _respect_rate_limit, bind, get, modify, sleep, ret. simpl.
  destruct (Qlt_le_dec _ _) as [Hlt|Hle]; simpl; (split; [reflexivity|]); split; lra.
Qed.

(** [get_aod_data] when a date does not parse: only the rate limiter has
    run. *)
Lemma get_aod_data_bad_date start_date end_date site data_level avg_type w e :
  strptime start_date = inl e
  \/ ((exists d, strptime start_date = inr d) /\ strptime end_date = inl e) ->
  get_aod_data start_date end_date site data_level avg_type w
  = (fst (_respect_rate_limit (1 # 1) w), inl e).
Proof.
  intros Hbad. unfold get_aod_data.
  destruct (_respect_rate_limit_returns (1 # 1) w) as (Hr & _ & _).
  unfold bind at 1. rewrite Hr. unfold bind, lift.
  destruct Hbad as [Hs|[[d Hs] He]]; rewrite Hs; [reflexivity|].
  rewrite He. reflexivity.
Qed.

Lemma last_request_time_at_request start_date end_date site w :
  last_request_time (world_at_request start_date end_date site w)
  = last_request_time (fst (_respect_rate_limit (1 # 1) w)).
Proof. reflexivity. Qed.

End Outcomes.

(** X10: a call of [get_aod_data] whose dates parse issues exactly one
    request, whatever the outcome. When it raises, the exception is a plain
    [Exception] whose message begins with "Failed to fetch data: " or with
    "Failed to parse data: ", and the error has been logged; when it
    returns, the table is the one parsed from the body of the response. *)
Theorem X10_one_request_two_errors {P : Platform}
    (start_date end_date site data_level avg_type : string)
    (start_dt end_dt : date) (w : World) :
  strptime start_date = inr start_dt ->
  strptime end_date = inr end_dt ->
  let request :=
    mkRequest base_url (query site start_dt end_dt data_level avg_type) (Some 30) in
  let at_request := world_at_request start_date end_date site w in
  let run := get_aod_data start_date end_date site data_level avg_type w in
  sent (fst run) = (sent w ++ [request])%list
  /\ (forall e, snd run = inl e ->
        (exists cause,
           e = Exception ("Failed to fetch data: " ++ cause)
           \/ e = Exception ("Failed to parse data: " ++ cause))
        /\ exists msg, last (logged (fst run)) = Some (ERROR msg))
  /\ (forall df, snd run = inr df ->
        exists response,
          snd (http_get at_request request) = inr response
          /\ raise_for_status base_url response = inr tt
          /\ parse_response (text response) = inr df).
Proof.
  intros Hstart Hend request at_request run.
  assert (Hrun : run = _) by (apply (get_aod_data_unfold _ _ _ _ _ _ _ Hstart Hend w)).
  fold request at_request in Hrun. cbv zeta in Hrun.
  pose proof (sent_at_request start_date end_date site w) as Hsent.
  fold at_request in Hsent. clearbody run at_request request.
  destruct (http_get at_request request) as [d out]. subst run.
  destruct out as [e|response]; simpl.
  - split; [destruct e; simpl; rewrite Hsent; reflexivity|]. split.
    + intros e'. destruct e; simpl; intros [= <-];
        (split; [eexists; eauto | eexists; apply last_snoc]).
    + intros df. destruct e; discriminate.
  - destruct (raise_for_status base_url response) as [e|[]] eqn:Hs; simpl.
    + split; [destruct e; simpl; rewrite Hsent; reflexivity|]. split.
      * intros e'. destruct e; simpl; intros [= <-];
          (split; [eexists; eauto | eexists; apply last_snoc]).
      * intros df. destruct e; discriminate.
    + destruct (parse_response (text response)) as [e|df] eqn:Hp; simpl.
      * split; [destruct e; simpl; rewrite Hsent; reflexivity|]. split.
        -- intros e'. destruct e; simpl; intros [= <-];
             (split; [eexists; eauto | eexists; apply last_snoc]).
        -- intros df. destruct e; discriminate.
      * split; [rewrite Hsent; reflexivity|]. split; [discriminate|].
        intros df' [= <-]. exists response. auto.
Qed.

Lemma X10_one_request_two_errors_witness :
  let run :=
    get_aod_data (P := Samples.timeless) "2020-01-01" "2020-01-31" "GSFC" "1.5" "10"
      Demo.world0 in
  length (sent (fst run)) = 1%nat
  /\ exists cause, snd run = inl (Exception ("Failed to parse data: " ++ cause)).
Proof.
  intros run.
  destruct (X10_one_request_two_errors (P := Samples.timeless)
              "2020-01-01" "2020-01-31" "GSFC" "1.5" "10"
              (mkDate 2020 1 1) (mkDate 2020 1 31) Demo.world0 eq_refl eq_refl)
    as (Hsent & _ & _).
  split; [unfold run; rewrite Hsent; reflexivity|].
  exists "Time(hh:mm:ss)". vm_compute. reflexivity.
Defined.

(** X11: when one of the two dates does not parse, [get_aod_data] raises the
    error of [strptime] unchanged, before the [try]: no request is issued
    and nothing is logged. *)
Theorem X11_bad_date_no_request {P : Platform}
    (start_date end_date site data_level avg_type : string) (w : World) (e : exn) :
  strptime start_date = inl e
  \/ ((exists d, strptime start_date = inr d) /\ strptime end_date = inl e) ->
  let run := get_aod_data start_date end_date site data_level avg_type w in
  snd run = inl e /\ sent (fst run) = sent w /\ logged (fst run) = logged w.
Proof.
  intros Hbad run. unfold run. rewrite (get_aod_data_bad_date _ _ _ _ _ _ _ Hbad).
  destruct (_respect_rate_limit_returns (1 # 1) w) as (_ & Hs & Hl). simpl. auto.
Qed.

Lemma X11_bad_date_no_request_witness :
  let run :=
    get_aod_data (P := Cases.online) "2020/01/01" "2020-01-31" "GSFC" "1.5" "10"
      Demo.world0 in
  snd run = inl (ValueError "time data '2020/01/01' does not match format '%Y-%m-%d'")
  /\ sent (fst run) = sent Demo.world0
  /\ logged (fst run) = logged Demo.world0.
Proof.
  apply (X11_bad_date_no_request (P := Cases.online) "2020/01/01" "2020-01-31"
           "GSFC" "1.5" "10" Demo.world0).
  left. reflexivity.
Defined.

(** X12: the rate limiter spaces the calls: every call of [get_aod_data],
    whatever its arguments and its outcome, leaves a request stamp that is
    the time at which its request was (or would have been) issued, at least
    one second after the stamp it found; the clock never goes back in the
    limiter. *)
Theorem X12_calls_are_spaced {P : Platform}
    (start_date end_date site data_level avg_type : string) (w : World) :
  let limited := fst (_respect_rate_limit (1 # 1) w) in
  let run := get_aod_data start_date end_date site data_level avg_type w in
  last_request_time (fst run) = clock limited
  /\ (last_request_time w + 1 <= last_request_time (fst run))%Q
  /\ (clock w <= clock limited)%Q.
Proof.
  intros limited run.
  destruct (_respect_rate_limit_spacing (1 # 1) w) as (Hstamp & Hgap & Hclock).
  fold limited in Hstamp, Hgap, Hclock.
  assert (Hkeep : last_request_time (fst run) = last_request_time limited).
  { unfold run. destruct (strptime start_date) as [e|sd] eqn:Hs.
    - rewrite (get_aod_data_bad_date _ _ _ _ _ _ e); [reflexivity | left; exact Hs].
    - destruct (strptime end_date) as [e|ed] eqn:He.
      + rewrite (get_aod_data_bad_date _ _ _ _ _ _ e); [reflexivity|].
        right. split; [eauto | exact He].
      + rewrite (get_aod_data_unfold _ _ _ _ _ _ _ Hs He w). cbv zeta.
        destruct (http_get _ _) as [d out].
        destruct (and_then out _) as [e|df]; [destruct e|]; reflexivity. }
  rewrite Hkeep. split; [exact Hstamp|]. split; [exact Hgap | exact Hclock].
Qed.

Section NormalizerFacts.

Context {P : Platform}.

Lemma getitem_missing df name : name ∉ columns df -> getitem df name = inl (KeyError name).
Proof.
  intros Hn. unfold getitem. apply get_loc_None in Hn. rewrite Hn. reflexivity.
Qed.

Lemma getitem_present df name : name ∈ columns df -> exists s, getitem df name = inr s.
Proof.
  intros Hin. unfold getitem. destruct (get_loc name (columns df)) eqn:E; [eauto|].
  apply get_loc_None in E. contradiction.
Qed.

Lemma set_nth_append {A} (d v : A) (l : list A) :
  set_nth d (length l) v l = (l ++ [v])%list.
Proof. induction l as [|x l IH]; simpl; [reflexivity | rewrite IH; reflexivity]. Qed.

Lemma set_column_append n (rs : list row) : forall vals,
  Forall (fun r : row => length r = n) rs ->
  List.map (firstn n) (set_column n vals rs) = rs
  /\ Forall (fun r : row => length r = S n) (set_column n vals rs).
Proof.
  induction rs as [|r rs IH]; intros vals Hall; simpl; [split; constructor|].
  inversion Hall as [|? ? Hr Hrs]; subst.
  destruct (IH (tl vals) Hrs) as [IH1 IH2].
  rewrite set_nth_append. split.
  - rewrite IH1, firstn_app, Nat.sub_diag, firstn_all. simpl.
    rewrite app_nil_r. reflexivity.
  - constructor; [rewrite length_app; simpl; lia | exact IH2].
Qed.

End NormalizerFacts.

(** X13: under the first convention the time column is mandatory: a table
    with rows that has a column "Date(dd:mm:yyyy)" but no column
    "Time(hh:mm:ss)" is not normalized, the code fails on the missing
    column (or earlier, on a date cell that is not text) and
    [parse_response] fails with it. *)
Theorem X13_time_column_is_mandatory {P : Platform} (df : DataFrame) :
  empty df = false ->
  "Date(dd:mm:yyyy)" ∈ columns df ->
  "Time(hh:mm:ss)" ∉ columns df ->
  (exists e, normalize df = inl e)
  /\ (forall body,
        Str.strip body <> "" ->
        read_csv (data_text (lines_of body)) = inr df ->
        exists e, parse_response body = inl e)
  /\ (forall s d,
        getitem df "Date(dd:mm:yyyy)" = inr s ->
        series_add_scalar s " " = inr d ->
        normalize df = inl (KeyError "Time(hh:mm:ss)")).
Proof.
  intros Hne Hdate Htime.
  destruct (getitem_present df _ Hdate) as [s Hs].
  pose proof (getitem_missing df _ Htime) as Ht.
  assert (Hres : forall e, resolve_datetime df = inl e -> normalize df = inl e).
  { intros e He. unfold normalize. rewrite Hne, He. reflexivity. }
  assert (Hfail : exists e, resolve_datetime df = inl e
                            /\ (forall d, series_add_scalar s " " = inr d ->
                                          e = KeyError "Time(hh:mm:ss)")).
  { unfold resolve_datetime. rewrite bool_decide_eq_true_2 by assumption.
    rewrite Hs. simpl. destruct (series_add_scalar s " ") as [e|d]; simpl.
    - exists e. split; [reflexivity | discriminate].
    - rewrite Ht. simpl. exists (KeyError "Time(hh:mm:ss)"). auto. }
  destruct Hfail as (e & He & Hkey).
  split; [exists e; apply Hres, He|]. split.
  - intros body Hbody Hread. exists e. unfold parse_response.
    destruct (String.eqb_spec (Str.strip body) "") as [E|_]; [contradiction|].
    rewrite Hread. simpl. apply Hres, He.
  - intros s' d Hs' Hd. rewrite Hs in Hs'. injection Hs' as <-.
    rewrite <- (Hkey d Hd). apply Hres, He.
Qed.

Lemma X13_time_column_is_mandatory_witness :
  normalize (P := Cases.quiet) Samples.date_only = inl (KeyError "Time(hh:mm:ss)").
Proof.
  destruct (X13_time_column_is_mandatory (P := Cases.quiet) Samples.date_only)
    as (_ & _ & Hkey).
  - reflexivity.
  - apply list_elem_of_In. left. reflexivity.
  - intros Hin. apply list_elem_of_In in Hin. simpl in Hin.
    destruct Hin as [E|[E|[]]]; discriminate E.
  - apply (Hkey [VStr "01:01:2020"] [VStr "01:01:2020 "]); reflexivity.
Defined.

(** X14: normalization keeps the data: for a well-formed table with rows,
    with a date column under one of the conventions and no column named
    "datetime", whose timestamps are resolved, the normalized table has the
    columns of the input followed by "datetime", and its rows, once that
    last cell is taken off, are the rows of the input, reordered. *)
Theorem X14_normalize_keeps_the_rows {P : Platform} (C : SortContract P)
    (raw resolved : DataFrame) :
  wf_frame raw ->
  empty raw = false ->
  recognizable raw = true ->
  "datetime" ∉ columns raw ->
  resolve_datetime raw = inr resolved ->
  exists df,
    normalize raw = inr df
    /\ columns df = (columns raw ++ ["datetime"])%list
    /\ Forall (fun r : row => length r = length (columns df)) (rows df)
    /\ Permutation (List.map (firstn (length (columns raw))) (rows df)) (rows raw).
Proof.
  intros [_ Hrows] Hne Hrec Hdt Hres.
  destruct (resolve_datetime_recognized _ _ Hrec Hres) as [ts ->].
  destruct (setitem_datetime raw ts) as (i & Hloc & Hkeys).
  set (df' := setitem raw "datetime" datetime64 (List.map cell_of_timestamp ts)) in *.
  assert (Hshape : columns df' = (columns raw ++ ["datetime"])%list
                   /\ rows df' = set_column (length (columns raw))
                                   (List.map cell_of_timestamp ts) (rows raw)).
  { unfold df', setitem. apply get_loc_None in Hdt. rewrite Hdt. auto. }
  destruct Hshape as [Hcols Hrs].
  destruct (set_column_append (length (columns raw)) (rows raw)
              (List.map cell_of_timestamp ts) Hrows) as [Hfirst Hlen].
  rewrite <- Hrs in Hfirst, Hlen.
  destruct (sort_values_returns i (rows df') Hkeys) as [rs Hsort].
  pose proof (sort_values_perm i (rows df') rs Hsort) as Hperm.
  exists (mkDataFrame (columns df') (dtypes df') rs). simpl.
  split; [|split; [exact Hcols | split]].
  - unfold normalize. rewrite Hne, Hres. simpl.
    rewrite bool_decide_eq_true_2.
    + unfold sort_values_by. fold df'. rewrite Hloc, Hsort. reflexivity.
    + fold df'. rewrite Hcols. apply elem_of_app. right. apply list_elem_of_In.
      left. reflexivity.
  - rewrite Hcols, length_app. simpl. rewrite Nat.add_1_r.
    eapply Permutation_Forall; [exact Hperm | exact Hlen].
  - rewrite <- Hfirst. apply Permutation_map. symmetry. exact Hperm.
Qed.

Lemma X14_normalize_keeps_the_rows_witness :
  exists df,
    normalize (P := Cases.quiet) Cases.C3_raw = inr df
    /\ columns df = (columns Cases.C3_raw ++ ["datetime"])%list
    /\ Forall (fun r : row => length r = length (columns df)) (rows df)
    /\ Permutation (List.map (firstn (length (columns Cases.C3_raw))) (rows df))
         (rows Cases.C3_raw).
Proof.
  apply (X14_normalize_keeps_the_rows (P := Cases.quiet)
           (stable_sort_contract Demo.down) Cases.C3_raw Cases.C3_resolved).
  - split; [reflexivity | repeat constructor].
  - reflexivity.
  - vm_compute. reflexivity.
  - intros Hin. apply list_elem_of_In in Hin. simpl in Hin.
    destruct Hin as [E|[E|[E|[]]]]; discriminate E.
  - vm_compute. reflexivity.
Defined.

(** * Further properties of the sites directory *)

Section DirectoryFacts.

Context {P : Platform}.


Lemma parse_site_line_passed_over line :
  passed_over line = true -> parse_site_line line = inr None.
Proof.
  unfold passed_over, parse_site_line. intros Hp.
  destruct (String.eqb (Str.strip line) ""); [reflexivity|]. simpl in Hp.
  apply Nat.ltb_lt in Hp.
  destruct (Nat.leb_spec 4 (length (Str.split Str.COMMA line))); [lia | reflexivity].
Qed.


Lemma parse_site_lines_app before : forall after,
  parse_site_lines (before ++ after)
  = match parse_site_lines before with
    | inl e => inl e
    | inr rs1 =>
        match parse_site_lines after with
        | inl e => inl e
        | inr rs2 => inr (rs1 ++ rs2)%list
        end
    end.
Proof.
  induction before as [|line before IH]; intros after; simpl.
  - destruct (parse_site_lines after); reflexivity.
  - destruct (parse_site_line line) as [e|o]; [reflexivity|]. rewrite IH.
    destruct (parse_site_lines before) as [e|rs1]; [reflexivity|].
    destruct (parse_site_lines after) as [e|rs2]; [reflexivity|].
    destruct o; reflexivity.
Qed.


End DirectoryFacts.


(** X16: blank lines and lines with fewer than four comma-separated fields
    do not count: the sites parsed from a file are those parsed from the
    file without these lines. *)
Theorem X16_short_lines_are_passed_over {P : Platform}
    (before after : list string) (line : string) :
  passed_over line = true ->
  parse_site_lines (before ++ line :: after)%list
  = parse_site_lines (before ++ after)%list.
Proof.
  intros Hp. rewrite !parse_site_lines_app. simpl.
  rewrite (parse_site_line_passed_over line Hp).
  destruct (parse_site_lines before) as [e|rs1]; [reflexivity|].
  destruct (parse_site_lines after) as [e|rs2]; reflexivity.
Qed.

Lemma X16_short_lines_witness :
  parse_site_lines (P := Cases.quiet) (["GSFC,-76.84,38.99,87.0"] ++ "a,b,c" :: ["X,1,2,3"])%list
  = parse_site_lines (P := Cases.quiet) (["GSFC,-76.84,38.99,87.0"] ++ ["X,1,2,3"])%list.
Proof.
  apply (X16_short_lines_are_passed_over (P := Cases.quiet)).
  reflexivity.
Defined.

(** X17: the directory is all or nothing: a single line of four fields
    whose longitude, latitude or elevation is not a number makes the whole
    parse fail, whatever the other lines, and [get_sites_list] then returns
    the frame without rows. *)
Theorem X17_one_bad_line_discards_all {P : Platform}
    (w : World) (d : Q) (response : Response)
    (header : string) (before after : list string) (bad : string) (e : exn) :
  http_get w (mkRequest sites_url [] None) = (d, inr response) ->
  Str.split Str.LF (Str.strip (text response)) = (header :: before ++ bad :: after)%list ->
  parse_site_line bad = inl e ->
  (exists e', parse_site_lines (before ++ bad :: after)%list = inl e')
  /\ snd (get_sites_list w) = inr no_sites.
Proof.
  intros Hget Hlines Hbad.
  assert (Hfail : exists e', parse_site_lines (before ++ bad :: after)%list = inl e').
  { rewrite parse_site_lines_app. simpl. rewrite Hbad.
    destruct (parse_site_lines before); eauto. }
  split; [exact Hfail|]. destruct Hfail as [e' He'].
  rewrite get_sites_list_unfold, fetch_sites_unfold, Hget. simpl.
  destruct (raise_for_status sites_url response) as [e0|[]]; simpl; [reflexivity|].
  rewrite Hlines. simpl. rewrite He'. reflexivity.
Qed.

Lemma X17_one_bad_line_witness :
  snd (get_sites_list (P := Cases.garbled) Demo.world0) = inr no_sites.
Proof.
  apply (X17_one_bad_line_discards_all (P := Cases.garbled) Demo.world0 (1 # 10)
           (mkResponse 200 "OK"
              ("name,lon,lat,elev" ++ String Str.LF "GSFC,west,38.99,87.0"))
           "name,lon,lat,elev" [] [] "GSFC,west,38.99,87.0"
           (ValueError "could not convert string to float: 'west'")).
  - reflexivity.
  - reflexivity.
  - reflexivity.
Defined.

Section CacheFacts.

Context {P : Platform}.


End CacheFacts.



(** * Further properties of the application *)

Section MainFacts.

Context {P : Platform}.

(** What a call of [get_aod_data] does to the requests and to the stored
    data, whatever its arguments and outcome. *)
Lemma get_aod_data_effects start_date end_date site data_level avg_type w :
  exists meas,
    sent (fst (get_aod_data start_date end_date site data_level avg_type w))
    = (sent w ++ meas)%list
    /\ Forall (fun r => url r = base_url) meas
    /\ (length meas <= 1)%nat
    /\ aod_data (fst (get_aod_data start_date end_date site data_level avg_type w))
       = aod_data w
    /\ shown (fst (get_aod_data start_date end_date site data_level avg_type w))
       = shown w.
Proof.
  assert (Hlim : sent (fst (_respect_rate_limit (1 # 1) w)) = sent w
                 /\ aod_data (fst (_respect_rate_limit (1 # 1) w)) = aod_data w
                 /\ shown (fst (_respect_rate_limit (1 # 1) w)) = shown w).
  { unfold _respect_rate_limit, bind, get, modify, sleep, ret. simpl.
    destruct (Qlt_le_dec _ _); simpl; auto. }
  destruct Hlim as (Hs & Ha & Hsh).
  destruct (strptime start_date) as [e|sd] eqn:Hsd.
  { exists []. rewrite (get_aod_data_bad_date _ _ _ _ _ _ e); [|left; exact Hsd].
    simpl. rewrite app_nil_r. repeat split; auto. }
  destruct (strptime end_date) as [e|ed] eqn:Hed.
  { exists []. rewrite (get_aod_data_bad_date _ _ _ _ _ _ e);
      [|right; split; [eauto | exact Hed]].
    simpl. rewrite app_nil_r. repeat split; auto. }
  exists [mkRequest base_url (query site sd ed data_level avg_type) (Some 30)].
  rewrite (get_aod_data_unfold _ _ _ _ _ _ _ Hsd Hed w). cbv zeta.
  unfold world_at_request.
  destruct (http_get _ _) as [d out].
  destruct (and_then out _) as [e|df]; [destruct e|]; simpl;
    rewrite Hs, Ha, Hsh; repeat split; auto; repeat constructor.
Qed.

End MainFacts.

Section MainUnfolded.

Context {P : Platform}.

Lemma st_cache_data_effects ttl w :
  exists df sites,
    snd (st_cache_data ttl get_sites_list w) = inr df
    /\ sent (fst (st_cache_data ttl get_sites_list w)) = (sent w ++ sites)%list
    /\ Forall (fun r => url r = sites_url) sites
    /\ (length sites <= 1)%nat
    /\ aod_data (fst (st_cache_data ttl get_sites_list w)) = aod_data w
    /\ shown (fst (st_cache_data ttl get_sites_list w)) = shown w.
Proof.
  assert (Hrun : exists df,
            snd (get_sites_list w) = inr df
            /\ sent (fst (get_sites_list w))
               = (sent w ++ [mkRequest sites_url [] None])%list
            /\ aod_data (fst (get_sites_list w)) = aod_data w
            /\ shown (fst (get_sites_list w)) = shown w).
  { rewrite get_sites_list_unfold, fetch_sites_unfold.
    destruct (http_get w _) as [d out]. simpl.
    destruct (and_then out _) as [e|df]; simpl; eauto. }
  destruct Hrun as (df & Hdf & Hsent & Hdata & Hshown).
  unfold st_cache_data, bind, get, modify, ret. cbv beta iota.
  destruct (sites_cache w) as [[t cached]|]; [destruct (Qlt_le_dec _ _)|].
  - exists cached, []. simpl. rewrite app_nil_r. repeat split; auto.
  - destruct (get_sites_list w) as [w' r]. simpl in *. subst r.
    exists df, [mkRequest sites_url [] None]. simpl.
    repeat split; auto; repeat constructor.
  - destruct (get_sites_list w) as [w' r]. simpl in *. subst r.
    exists df, [mkRequest sites_url [] None]. simpl.
    repeat split; auto; repeat constructor.
Qed.

Lemma download_unfold i w :
  download i w
  = let run := get_aod_data (strftime (start_date i)) (strftime (end_date i))
                 (selected_site i) (data_level i) (avg_type i) w in
    match snd run with
    | inl e =>
        (add_shown (st_error ("Error downloading data: " ++ str_of_exn e)) (fst run),
         inr false)
    | inr raw_data =>
        if empty raw_data then
          (add_shown (st_error ("No data available for " ++ selected_site i
                                ++ " in the selected date range.")) (fst run),
           inr false)
        else
          (add_shown (st_success "Successfully downloaded data points!")
             (set_aod_data (Some (clean_data raw_data)) (fst run)),
           inr true)
    end.
Proof.
  unfold download, try_except, bind, show, modify, ret. cbv zeta.
  destruct (get_aod_data _ _ _ _ _ w) as [w2 [e|raw]]; simpl; [reflexivity|].
  destruct (empty raw); reflexivity.
Qed.

Lemma display_unfold w :
  display w
  = match aod_data w with
    | Some df =>
        (add_shown (if empty df then st_warning "No data to display."
                    else st_render "data summary, time series, statistics, tables") w,
         inr tt)
    | None => (w, inl (KeyError "aod_data"))
    end.
Proof.
  unfold display, bind, get, show, modify, raise.
  destruct (aod_data w) as [df|]; [|reflexivity]. destruct (empty df); reflexivity.
Qed.

Lemma main_unfold i w :
  main i w
  = let loaded := st_cache_data (3600 # 1) get_sites_list w in
    match snd loaded with
    | inl e => (fst loaded, inl e)
    | inr sites_df =>
        if empty sites_df then
          (add_shown (st_error "Failed to load AERONET sites. Please check your internet connection.")
             (fst loaded), inr tt)
        else if date_gt (start_date i) (end_date i) then
          (add_shown (st_error "Start date must be before end date!") (fst loaded), inr tt)
        else if bool_decide (selected_wavelengths i = []) then
          (add_shown (st_warning "Please select at least one wavelength.") (fst loaded),
           inr tt)
        else if download_data i then
          match snd (download i (fst loaded)) with
          | inl e => (fst (download i (fst loaded)), inl e)
          | inr go_on =>
              if go_on then display (fst (download i (fst loaded)))
              else (fst (download i (fst loaded)), inr tt)
          end
        else
          match aod_data (fst loaded) with
          | None =>
              (add_shown (st_render "sites map, site information, instructions")
                 (fst loaded), inr tt)
          | Some _ => display (fst loaded)
          end
    end.
Proof.
  unfold main. unfold bind at 1. cbv zeta.
  destruct (st_cache_data (3600 # 1) get_sites_list w) as [w1 [e|sites_df]];
    simpl; [reflexivity|].
  destruct (empty sites_df); [reflexivity|].
  destruct (date_gt _ _); [reflexivity|].
  destruct (bool_decide _); [reflexivity|].
  unfold bind, get, show, modify, ret. simpl.
  destruct (download_data i); simpl.
  - destruct (download i w1) as [w2 [e|[|]]]; reflexivity.
  - destruct (aod_data w1) as [stored|] eqn:Hst; simpl; [|reflexivity].
    destruct (display w1) as [w3 r]; reflexivity.
Qed.

End MainUnfolded.

(** X19: a run of [main] issues at most two requests: at most one for the
    sites directory and then at most one to the measurement endpoint, and
    the latter only when the download button is pressed, the start date is
    not after the end date and at least one wavelength is selected. *)
Theorem X19_requests_of_a_run {P : Platform} (i : Inputs) (w : World) :
  exists sites meas,
    sent (fst (main i w)) = (sent w ++ sites ++ meas)%list
    /\ Forall (fun r => url r = sites_url) sites /\ (length sites <= 1)%nat
    /\ Forall (fun r => url r = base_url) meas /\ (length meas <= 1)%nat
    /\ (meas <> [] ->
        download_data i = true
        /\ date_gt (start_date i) (end_date i) = false
        /\ selected_wavelengths i <> []).
Proof.
  rewrite main_unfold. cbv zeta.
  destruct (st_cache_data_effects (3600 # 1) w)
    as (df & sites & Hdf & Hsent & Hall & Hlen & _ & _).
  rewrite Hdf.
  assert (Hearly : forall w' : World,
            sent w' = sent (fst (st_cache_data (3600 # 1) get_sites_list w)) ->
            exists sites meas,
              sent w' = (sent w ++ sites ++ meas)%list
              /\ Forall (fun r => url r = sites_url) sites /\ (length sites <= 1)%nat
              /\ Forall (fun r => url r = base_url) meas /\ (length meas <= 1)%nat
              /\ (meas <> [] ->
                  download_data i = true
                  /\ date_gt (start_date i) (end_date i) = false
                  /\ selected_wavelengths i <> [])).
  { intros w' ->. exists sites, []. simpl. rewrite app_nil_r.
    repeat split; auto; try constructor; congruence. }
  destruct (empty df); [apply Hearly; reflexivity|].
  destruct (date_gt (start_date i) (end_date i)) eqn:Hgt; [apply Hearly; reflexivity|].
  destruct (bool_decide (selected_wavelengths i = [])) eqn:Hwl;
    [apply Hearly; reflexivity|].
  apply bool_decide_eq_false in Hwl.
  destruct (download_data i) eqn:Hdl.
  - rewrite download_unfold. cbv zeta.
    destruct (get_aod_data_effects (strftime (start_date i)) (strftime (end_date i))
                (selected_site i) (data_level i) (avg_type i)
                (fst (st_cache_data (3600 # 1) get_sites_list w)))
      as (meas & Hm & HmAll & HmLen & _ & _).
    exists sites, meas.
    assert (Hgoal : forall w' : World,
              sent w' = sent (fst (get_aod_data (strftime (start_date i))
                                     (strftime (end_date i)) (selected_site i)
                                     (data_level i) (avg_type i)
                                     (fst (st_cache_data (3600 # 1) get_sites_list w)))) ->
              sent w' = (sent w ++ sites ++ meas)%list).
    { intros w' ->. rewrite Hm, Hsent, app_assoc. reflexivity. }
    split; [|repeat split; auto].
    destruct (snd (get_aod_data _ _ _ _ _ _)) as [e|raw]; simpl.
    + apply Hgoal. reflexivity.
    + destruct (empty raw); simpl; [apply Hgoal; reflexivity|].
      rewrite display_unfold. simpl. apply Hgoal. reflexivity.
  - exists sites, []. rewrite app_nil_r.
    split; [|repeat split; auto; try constructor; congruence].
    destruct (aod_data _) as [stored|] eqn:Hst; [|exact Hsent].
    rewrite display_unfold, Hst. exact Hsent.
Qed.

(** X20: what a download leaves behind. When [main] reaches the download
    and [get_aod_data] raises or returns an empty table, the data stored
    before stays as it was and the run ends on an error message, without
    displaying anything; when it returns a table with rows, the cleaned
    table replaces the stored data and a success message is shown. *)
Theorem X20_outcome_of_a_download {P : Platform} (i : Inputs) (w : World)
    (sites_df : DataFrame) :
  let loaded := st_cache_data (3600 # 1) get_sites_list w in
  snd loaded = inr sites_df ->
  empty sites_df = false ->
  date_gt (start_date i) (end_date i) = false ->
  selected_wavelengths i <> [] ->
  download_data i = true ->
  let run := get_aod_data (strftime (start_date i)) (strftime (end_date i))
               (selected_site i) (data_level i) (avg_type i) (fst loaded) in
  let final := fst (main i w) in
  match snd run with
  | inl e =>
      aod_data final = aod_data w
      /\ shown final
         = (shown w ++ [st_error ("Error downloading data: " ++ str_of_exn e)])%list
  | inr raw_data =>
      if empty raw_data then
        aod_data final = aod_data w
        /\ shown final
           = (shown w ++ [st_error ("No data available for " ++ selected_site i
                                    ++ " in the selected date range.")])%list
      else
        aod_data final = Some (clean_data raw_data)
        /\ exists msg rest, shown final = (shown w ++ st_success msg :: rest)%list
  end.
Proof.
  intros loaded Hloaded Hsites Hgt Hwl Hdl run final.
  destruct (st_cache_data_effects (3600 # 1) w)
    as (df & sites & _ & _ & _ & _ & Hdata & Hshown).
  fold loaded in Hdata, Hshown.
  destruct (get_aod_data_effects (strftime (start_date i)) (strftime (end_date i))
              (selected_site i) (data_level i) (avg_type i) (fst loaded))
    as (meas & _ & _ & _ & Hdata2 & Hshown2).
  fold run in Hdata2, Hshown2.
  unfold final. rewrite main_unfold. cbv zeta. fold loaded.
  rewrite Hloaded, Hsites, Hgt, bool_decide_eq_false_2, Hdl by assumption.
  rewrite download_unfold. cbv zeta. fold run.
  destruct (snd run) as [e|raw]; simpl.
  - rewrite Hdata2, Hshown2, Hdata, Hshown. auto.
  - destruct (empty raw); simpl.
    + rewrite Hdata2, Hshown2, Hdata, Hshown. auto.
    + rewrite display_unfold. simpl. split; [reflexivity|].
      do 2 eexists. rewrite Hshown2, Hshown, <- app_assoc. reflexivity.
Qed.

Lemma X20_outcome_of_a_download_witness :
  let i := Cases.forwards in
  let w := Samples.with_sites in
  let loaded := st_cache_data (3600 # 1) (get_sites_list (P := Samples.timeless)) w in
  let run := get_aod_data (P := Samples.timeless)
               (strftime (Platform := Samples.timeless) (start_date i))
               (strftime (Platform := Samples.timeless) (end_date i))
               (selected_site i) (data_level i) (avg_type i) (fst loaded) in
  let final := fst (main (P := Samples.timeless) i w) in
  match snd run with
  | inl e =>
      aod_data final = aod_data w
      /\ shown final
         = (shown w ++ [st_error ("Error downloading data: " ++ str_of_exn e)])%list
  | inr raw_data =>
      if empty raw_data then
        aod_data final = aod_data w
        /\ shown final
           = (shown w ++ [st_error ("No data available for " ++ selected_site i
                                    ++ " in the selected date range.")])%list
      else
        aod_data final = Some (clean_data raw_data)
        /\ exists msg rest, shown final = (shown w ++ st_success msg :: rest)%list
  end.
Proof.
  exact (X20_outcome_of_a_download (P := Samples.timeless) Cases.forwards
           Samples.with_sites Samples.one_site
           eq_refl eq_refl eq_refl ltac:(discriminate) eq_refl).
Defined.

Example download_fails_ex :
  exists e,
    snd (get_aod_data (P := Samples.timeless) "2020-01-01" "2020-02-01" "GSFC" "1.5" "10"
           Samples.with_sites) = inl e
    /\ shown (fst (main (P := Samples.timeless) Cases.forwards Samples.with_sites))
       = [st_error ("Error downloading data: " ++ str_of_exn e)].
Proof. eexists. split; vm_compute; reflexivity. Qed.

(** * Properties of the display *)

Section DisplayFacts.

Lemma datetime_is_no_aod_column df w : extract_aod_columns df !! w <> Some "datetime".
Proof.
  intros Hw. apply resolved_is_filed in Hw as [_ Hf].
  apply filed_under_iff in Hf as (before & after & _ & Hm & _).
  apply andb_true_iff in Hm as [_ Haod]. vm_compute in Haod. discriminate.
Qed.

Lemma NoDup_omap_injective {A B} (f : A -> option B) (l : list A) :
  (forall x y z, f x = Some z -> f y = Some z -> x = y) ->
  NoDup l -> NoDup (omap f l).
Proof.
  intros Hinj. induction 1 as [|x l Hx Hl IH]; [constructor|].
  change (omap f (x :: l))
    with (match f x with Some y => y :: omap f l | None => omap f l end).
  destruct (f x) as [z|] eqn:Hfx; [|exact IH].
  constructor; [|exact IH]. intros Hin.
  apply list_elem_of_omap in Hin as (y & Hy & Hfy).
  rewrite (Hinj x y z Hfx Hfy) in Hx. contradiction.
Qed.

Lemma omap_length_le {A B} (f : A -> option B) (l : list A) :
  (length (omap f l) <= length l)%nat.
Proof.
  induction l as [|x l IH]; [simpl; lia|].
  change (omap f (x :: l))
    with (match f x with Some y => y :: omap f l | None => omap f l end).
  destruct (f x); simpl length; lia.
Qed.

Lemma dropna_length_le s : (length (dropna s) <= length s)%nat.
Proof. apply filter_length_le. Qed.

Local Open Scope Q_scope.

Lemma completeness_range v t :
  (v <= t)%nat -> 0 <= completeness v t /\ completeness v t <= 100 # 1.
Proof.
  intros Hvt. destruct t as [|t].
  { change (completeness v 0) with 0. split; lra. }
  change (completeness v (S t))
    with (Series.of_nat v / Series.of_nat (S t) * (100 # 1)).
  pose proof (of_nat_pos t) as Hpos.
  assert (H0 : 0 <= Series.of_nat v)
    by (change 0 with (Series.of_nat 0); apply of_nat_le; lia).
  pose proof (of_nat_le v (S t) Hvt) as Hle.
  assert (Hq0 : 0 <= Series.of_nat v / Series.of_nat (S t)).
  { apply Qle_shift_div_l; [exact Hpos | lra]. }
  assert (Hq1 : Series.of_nat v / Series.of_nat (S t) <= 1).
  { apply Qle_shift_div_r; [exact Hpos | lra]. }
  split; lra.
Qed.

End DisplayFacts.

(** X21: the columns of the table that is shown and exported exist and are
    distinct: every name of [display_cols] is a column of the data, and
    distinct selected wavelengths give distinct names, none of them
    "datetime", so that the selection of these columns cannot fail. *)
Theorem X21_display_columns_exist (aod_data : DataFrame) (selected : list Z) :
  let cols := display_cols aod_data (extract_aod_columns aod_data) selected in
  Forall (fun c => c ∈ columns aod_data) cols
  /\ (length cols <= S (length selected))%nat
  /\ (NoDup selected -> NoDup cols).
Proof.
  intros cols. unfold cols, display_cols. split; [|split].
  - apply Forall_app. split.
    + destruct (bool_decide _) eqn:Hd; [|constructor].
      apply bool_decide_eq_true in Hd. constructor; [exact Hd | constructor].
    + apply Forall_forall. intros c Hin.
      apply list_elem_of_omap in Hin as (w & _ & Hw).
      apply resolved_is_filed in Hw. apply Hw.
  - rewrite length_app.
    pose proof (omap_length_le (fun w => extract_aod_columns aod_data !! w) selected).
    destruct (bool_decide _); simpl; lia.
  - intros Hnd. apply NoDup_app. split; [|split].
    + destruct (bool_decide _); [|constructor].
      constructor; [apply not_elem_of_nil | constructor].
    + intros c Hc Hin. apply list_elem_of_omap in Hin as (w & _ & Hw).
      destruct (bool_decide _); [|inversion Hc].
      apply list_elem_of_singleton in Hc. subst c.
      exact (datetime_is_no_aod_column aod_data w Hw).
    + apply NoDup_omap_injective; [|exact Hnd].
      intros w1 w2 c H1 H2. apply resolved_is_filed in H1 as [_ H1].
      apply resolved_is_filed in H2 as [_ H2]. unfold filed_under in H1, H2.
      destruct (wavelength_of c); [|discriminate].
      apply Z.eqb_eq in H1, H2. congruence.
Qed.

Lemma X21_display_columns_witness :
  NoDup (display_cols Cases.C3_resolved (extract_aod_columns Cases.C3_resolved)
           [440; 500]).
Proof.
  apply (X21_display_columns_exist Cases.C3_resolved [440; 500]).
  apply NoDup_cons. split; [|apply NoDup_singleton].
  intros Hin. apply list_elem_of_singleton in Hin. discriminate.
Defined.

(** X22: the completeness table never fails on the column map of its own
    data, and every row of it is sound: the valid measurements are at most
    the total, the total is the number of rows of the data, and the
    percentage lies between 0 and 100. *)
Theorem X22_completeness_is_a_percentage (aod_data : DataFrame) (selected : list Z) :
  exists table,
    completeness_data aod_data (extract_aod_columns aod_data) selected = inr table
    /\ (length table <= length selected)%nat
    /\ Forall (fun r =>
                 In (for_wavelength r) selected
                 /\ (valid_measurements r <= total_possible r)%nat
                 /\ total_possible r = length (rows aod_data)
                 /\ (0 <= percent r)%Q /\ (percent r <= 100 # 1)%Q) table.
Proof.
  induction selected as [|w rest IH]; simpl.
  - exists []. repeat split; [simpl; lia | constructor].
  - destruct IH as (table & Ht & Hlen & Hall).
    assert (Hweak : Forall (fun r =>
                      (w = for_wavelength r \/ In (for_wavelength r) rest)
                      /\ (valid_measurements r <= total_possible r)%nat
                      /\ total_possible r = length (rows aod_data)
                      /\ (0 <= percent r)%Q /\ (percent r <= 100 # 1)%Q) table).
    { eapply Forall_impl; [exact Hall|]. intros r (H1 & H2). auto. }
    destruct (extract_aod_columns aod_data !! w) as [col|] eqn:Hw.
    + destruct (getitem_resolved aod_data w col Hw) as [s Hs]. rewrite Hs, Ht.
      eexists. split; [reflexivity|]. split; [simpl; lia|].
      constructor; [|exact Hweak]. simpl.
      assert (Hv : (valid_count s <= length (rows aod_data))%nat).
      { rewrite <- (getitem_length aod_data col s Hs). apply dropna_length_le. }
      destruct (completeness_range _ _ Hv). auto.
    + exists table. split; [exact Ht|]. split; [lia | exact Hweak].
Qed.

(** X23: the two tables of the display agree: when statistics are returned
    for a wavelength, their count is the number of valid measurements that
    the completeness table reports for the same column. *)
Theorem X23_count_is_valid_count (df : DataFrame) (w : Z) (st : Stats) :
  calculate_statistics df w = inr (Some st) ->
  exists col s,
    extract_aod_columns df !! w = Some col
    /\ getitem df col = inr s
    /\ count st = valid_count s.
Proof.
  intros Hst.
  apply calculate_statistics_inv in Hst as (col & s & xs & Hw & Hs & Hn & _ & ->).
  exists col, s. split; [exact Hw|]. split; [exact Hs|].
  simpl. apply to_numerics_length, Hn.
Qed.

Lemma X23_count_is_valid_count_witness :
  exists col s,
    extract_aod_columns Cases.C5_frame !! 440 = Some col
    /\ getitem Cases.C5_frame col = inr s
    /\ 3%nat = valid_count s.
Proof.
  eapply (X23_count_is_valid_count Cases.C5_frame 440
            {| count := 3; mean := _; median := _; std := _; min := _; max := _;
               q25 := _; q75 := _ |}).
  vm_compute. reflexivity.
Defined.

(** * Properties of the plots *)

Section PlotFacts.

Lemma complete_pairs_drawable df col pairs :
  complete_pairs df col = inr pairs ->
  length (List.map fst pairs) = length (List.map snd pairs)
  /\ Forall (fun c => isna c = false) (List.map fst pairs)
  /\ Forall (fun c => isna c = false) (List.map snd pairs).
Proof.
  unfold complete_pairs.
  destruct (getitem df "datetime") as [e|xs]; [discriminate|].
  destruct (getitem df col) as [e|ys]; [discriminate|].
  intros [= <-]. split; [rewrite !length_map; reflexivity|].
  induction (combine xs ys) as [|[a b] l [IH1 IH2]]; simpl; [split; constructor|].
  destruct (isna a) eqn:Ha; simpl; [split; assumption|].
  destruct (isna b) eqn:Hb; simpl; [split; assumption|].
  split; constructor; assumption.
Qed.

Lemma complete_pairs_no_datetime df col :
  "datetime" ∉ columns df -> complete_pairs df col = inl (KeyError "datetime").
Proof.
  intros Hn. unfold complete_pairs. apply get_loc_None in Hn.
  unfold getitem at 1. rewrite Hn. reflexivity.
Qed.

Lemma timeseries_traces_drawable colors df aod selected : forall i traces,
  timeseries_traces colors df aod selected i = inr traces ->
  Forall drawable traces /\ (length traces <= length selected)%nat.
Proof.
  induction selected as [|w rest IH]; intros i traces; simpl.
  - intros [= <-]. split; [constructor | simpl; lia].
  - destruct (aod !! w) as [col|].
    + destruct (complete_pairs df col) as [e|pairs] eqn:Hp; [discriminate|].
      destruct (timeseries_traces colors df aod rest (S i)) as [e|ts] eqn:Ht;
        [discriminate|].
      destruct (IH (S i) ts Ht) as [Hall Hlen]. intros [= <-].
      destruct pairs as [|p pairs]; [split; [exact Hall | lia]|].
      destruct (complete_pairs_drawable df col _ Hp) as (H1 & H2 & H3).
      split; [|simpl; lia]. constructor; [|exact Hall].
      simpl. repeat split; try assumption; try discriminate.
    + intros Ht. destruct (IH (S i) traces Ht) as [Hall Hlen]. split; [exact Hall | lia].
Qed.

Lemma timeseries_traces_no_datetime colors df aod selected : forall i,
  "datetime" ∉ columns df ->
  Exists (fun w => aod !! w <> None) selected ->
  timeseries_traces colors df aod selected i = inl (KeyError "datetime").
Proof.
  induction selected as [|w rest IH]; intros i Hn Hex; [inversion Hex|].
  simpl. destruct (aod !! w) as [col|] eqn:Hw.
  - rewrite (complete_pairs_no_datetime df col Hn). reflexivity.
  - apply IH; [exact Hn|]. inversion Hex as [? ? Hhd|? ? Htl]; subst; [congruence | exact Htl].
Qed.



End PlotFacts.

(** X24: every trace of a time series figure can be drawn: it has as many
    dates as values, at least one point and no null among them; there is at
    most one trace per selected wavelength; a figure for an empty table or
    an empty column map has no trace and one annotation. *)
Theorem X24_time_series_traces_are_drawable (colors : palette) (df : DataFrame)
    (aod_columns : gmap Z string) (selected : list Z) (title_ : string) (fig : Figure) :
  plot_aod_timeseries colors df aod_columns selected title_ = inr fig ->
  Forall drawable (data fig)
  /\ (length (data fig) <= length selected)%nat
  /\ (empty df = true \/ aod_columns = ∅ ->
      data fig = [] /\ length (annotations fig) = 1%nat).
Proof.
  unfold plot_aod_timeseries. destruct (empty df || bool_decide (aod_columns = ∅)) eqn:Hc.
  - intros [= <-]. simpl. split; [constructor|]. split; [lia | auto].
  - destruct (timeseries_traces colors df aod_columns selected 0) as [e|ts] eqn:Ht;
      [discriminate|].
    intros [= <-]. simpl.
    destruct (timeseries_traces_drawable _ _ _ _ _ _ Ht) as [Hall Hlen].
    split; [exact Hall|]. split; [exact Hlen|].
    apply orb_false_iff in Hc as [He Ha]. apply bool_decide_eq_false in Ha.
    intros [Hemp|Hnone]; congruence.
Qed.

Lemma X24_time_series_witness :
  let fig := mkFigure
               [Scatter [VTime 1577966400; VTime 1577880000; VTime 1577880000]
                  [VFloat (3 # 10); VFloat (1 # 10); VFloat (2 # 10)]
                  "AOD 440nm" "red"] [] (Some "GSFC") in
  Forall drawable (data fig) /\ (length (data fig) <= 2)%nat.
Proof.
  intros fig.
  destruct (X24_time_series_traces_are_drawable ("red", ["blue"]) Cases.C3_resolved
              (extract_aod_columns Cases.C3_resolved) [440; 500] "GSFC" fig)
    as (H1 & H2 & _).
  - vm_compute. reflexivity.
  - split; [exact H1 | exact H2].
Defined.

(** X25: a table without a "datetime" column cannot be plotted: when the
    table has rows and one of the selected wavelengths is bound to a
    column, [plot_aod_timeseries] raises a KeyError. This is the case of a
    table that normalization has passed through without timestamps. *)
Theorem X25_no_timestamps_no_plot (colors : palette) (df : DataFrame)
    (aod_columns : gmap Z string) (selected : list Z) (title_ : string) :
  empty df = false ->
  "datetime" ∉ columns df ->
  Exists (fun w => aod_columns !! w <> None) selected ->
  exists msg,
    plot_aod_timeseries colors df aod_columns selected title_ = inl (KeyError msg).
Proof.
  intros Hne Hdt Hex. exists "datetime". unfold plot_aod_timeseries. rewrite Hne.
  assert (Hmap : bool_decide (aod_columns = ∅) = false).
  { apply bool_decide_eq_false. intros ->.
    apply Exists_exists in Hex as (w & _ & Hw). rewrite lookup_empty in Hw. congruence. }
  rewrite Hmap. simpl.
  rewrite (timeseries_traces_no_datetime colors df aod_columns selected 0 Hdt Hex).
  reflexivity.
Qed.

Lemma X25_no_timestamps_no_plot_witness :
  exists msg,
    plot_aod_timeseries ("red", []) Cases.C2_frame (extract_aod_columns Cases.C2_frame)
      [440; 500] "GSFC"
    = inl (KeyError msg).
Proof.
  apply (X25_no_timestamps_no_plot ("red", []) Cases.C2_frame
           (extract_aod_columns Cases.C2_frame) [440; 500] "GSFC").
  - reflexivity.
  - intros Hin. apply list_elem_of_In in Hin. simpl in Hin.
    destruct Hin as [E|[E|[]]]; discriminate E.
  - apply Exists_cons. left. vm_compute. discriminate.
Defined.



(** X27: the request of a run carries the selections of the user: when the
    sites are loaded, the dates are in order, a wavelength is selected and
    the button is pressed, and the dates survive the round trip through
    their text form, [main] issues, after the load of the sites, exactly the
    request for the selected site, the two dates, the parameter named "AOD"
    followed by the selected level as it is (for instance "AOD1.5"), the
    averaging code and [if_no_html=1], with a timeout of 30 seconds. *)
Theorem X27_request_of_a_run {P : Platform} (i : Inputs) (w : World)
    (sites_df : DataFrame) :
  let loaded := st_cache_data (3600 # 1) get_sites_list w in
  snd loaded = inr sites_df ->
  empty sites_df = false ->
  date_gt (start_date i) (end_date i) = false ->
  selected_wavelengths i <> [] ->
  download_data i = true ->
  strptime (strftime (start_date i)) = inr (start_date i) ->
  strptime (strftime (end_date i)) = inr (end_date i) ->
  sent (fst (main i w))
  = (sent (fst loaded)
     ++ [mkRequest base_url
           [("site", selected_site i);
            ("year", Str.of_int (year (start_date i)));
            ("month", Str.of_int (month (start_date i)));
            ("day", Str.of_int (day (start_date i)));
            ("year2", Str.of_int (year (end_date i)));
            ("month2", Str.of_int (month (end_date i)));
            ("day2", Str.of_int (day (end_date i)));
            (("AOD" ++ data_level i)%string, "1");
            ("AVG", avg_type i);
            ("if_no_html", "1")]
           (Some 30)])%list.
Proof.
  intros loaded Hloaded Hsites Hgt Hwl Hdl Hstart Hend.
  rewrite main_unfold. cbv zeta. fold loaded.
  rewrite Hloaded, Hsites, Hgt, bool_decide_eq_false_2, Hdl by assumption.
  rewrite download_unfold. cbv zeta.
  assert (Hsent : sent (fst (get_aod_data (strftime (start_date i))
                               (strftime (end_date i)) (selected_site i)
                               (data_level i) (avg_type i) (fst loaded)))
                  = (sent (fst loaded)
                     ++ [mkRequest base_url
                           (query (selected_site i) (start_date i) (end_date i)
                              (data_level i) (avg_type i)) (Some 30)])%list).
  { rewrite (get_aod_data_unfold _ _ _ _ _ _ _ Hstart Hend (fst loaded)). cbv zeta.
    pose proof (sent_at_request (strftime (start_date i)) (strftime (end_date i))
                  (selected_site i) (fst loaded)) as Hat.
    set (at_request := world_at_request _ _ _ _) in *. clearbody at_request.
    destruct (http_get _ _) as [d out].
    destruct (and_then out _) as [e|df]; [destruct e|]; simpl; rewrite Hat; reflexivity. }
  unfold query in Hsent.
  destruct (snd (get_aod_data _ _ _ _ _ _)) as [e|raw]; simpl; [exact Hsent|].
  destruct (empty raw); simpl; [exact Hsent|].
  rewrite display_unfold. simpl. exact Hsent.
Qed.

Lemma X27_request_of_a_run_witness :
  List.map params
    (sent (fst (main (P := Samples.timeless) Cases.forwards Samples.with_sites)))
  = [[("site", "GSFC"); ("year", "2020"); ("month", "1"); ("day", "1");
      ("year2", "2020"); ("month2", "2"); ("day2", "1");
      ("AOD1.5", "1"); ("AVG", "10"); ("if_no_html", "1")]].
Proof.
  rewrite (X27_request_of_a_run (P := Samples.timeless) Cases.forwards
             Samples.with_sites Samples.one_site
             eq_refl eq_refl eq_refl ltac:(discriminate) eq_refl eq_refl eq_refl).
  reflexivity.
Defined.
